(** * gsettings: session-bus location, daemon lifecycle and settings batch

    A shallow embedding of [system/gsettings.py] (an Ansible module written
    for Python 2) together with the properties of its bus-session handling
    and of its settings loop.

    Conventions of the embedding:
    - a Python [str] is a [string] (a sequence of bytes);
    - [os.environ] is a [gmap string string];
    - the files under [/proc], the user database and the output of the
      [dbus-launch] helper are read from an [os_world] record, a snapshot of
      what the operating system answers;
    - statements that act on the outside (spawning, sleeping, signalling,
      writing a setting) append an [event] to a trace, in program order;
    - a Python exception is the [Raise] outcome of a computation; the state
      reached when it was raised is kept.

    Left out of the model: the answers of the system are one snapshot (a
    process does not vanish between the scan and the later reads); what
    the interpreter does after an exception has escaped [main] (the later
    finalisation of the instance) is not followed; [os.kill] is recorded as
    sent, whatever the system answers. *)

From stdpp Require Import gmap strings list fin_maps pretty.
From Stdlib Require Import Ascii String ZArith Lia.

Local Open Scope Z_scope.
Local Open Scope list_scope.

(** ** Python string primitives used by the module *)

Module PyStr.

Definition NUL : ascii := "000"%char.
Definition LF : ascii := "010"%char.

(** [len(s)] *)
Definition len (s : string) : nat := String.length s.

(** [s.startswith(p)] *)
Definition startswith (s p : string) : bool := String.prefix p s.

(** [sub in s] *)
Fixpoint contains (sub s : string) : bool :=
  String.prefix sub s ||
  match s with
  | EmptyString => false
  | String _ s' => contains sub s'
  end.

(** [s.split(c)] for a one-character separator: never the empty list. *)
Fixpoint split (c : ascii) (s : string) : list string :=
  match s with
  | EmptyString => [EmptyString]
  | String a s' =>
      if Ascii.eqb a c then EmptyString :: split c s'
      else match split c s' with
           | h :: t => String a h :: t
           | [] => [String a EmptyString]
           end
  end.

(** [s.split()]: maximal runs of non-whitespace characters. *)
Definition split_ws (s : string) : list string := String.words s.

Fixpoint lstrip (s : string) : string :=
  match s with
  | String a s' => if Ascii.is_space a then lstrip s' else s
  | EmptyString => EmptyString
  end.

(** [s.strip()] *)
Definition strip (s : string) : string :=
  String.rev (lstrip (String.rev (lstrip s))).

Fixpoint drop (n : nat) (s : string) : string :=
  match n, s with
  | O, _ => s
  | S n', String _ s' => drop n' s'
  | S _, EmptyString => EmptyString
  end.

(** [s.replace(old, new)] for a non-empty [old]: the occurrences of [old]
    are found from left to right and do not overlap.  [skip] counts the
    characters of the current occurrence still to be dropped. *)
Fixpoint replace_go (old new : string) (skip : nat) (s : string) : string :=
  match s with
  | EmptyString => EmptyString
  | String a s' =>
      match skip with
      | S k => replace_go old new k s'
      | O =>
          if String.prefix old s
          then String.append new (replace_go old new (len old - 1) s')
          else String a (replace_go old new O s')
      end
  end.

Fixpoint intersperse (new s : string) : string :=
  match s with
  | EmptyString => EmptyString
  | String a s' => String a (String.append new (intersperse new s'))
  end.

Definition replace (old new s : string) : string :=
  match old with
  | EmptyString => String.append new (intersperse new s)
  | _ => replace_go old new O s
  end.

(** [s.index(c)]: position of the first [c]; [None] stands for the
    [ValueError] of a missing character. *)
Fixpoint index (c : ascii) (s : string) : option nat :=
  match s with
  | EmptyString => None
  | String a s' =>
      if Ascii.eqb a c then Some O else S <$> index c s'
  end.

(** [s[0:n]] *)
Fixpoint take (n : nat) (s : string) : string :=
  match n, s with
  | S n', String a s' => String a (take n' s')
  | _, _ => EmptyString
  end.

Definition is_digit (a : ascii) : bool :=
  match Ascii.is_nat a with Some _ => true | None => false end.

Fixpoint all_digits (s : string) : bool :=
  match s with
  | EmptyString => true
  | String a s' => is_digit a && all_digits s'
  end.

(** [s.isdigit()]: at least one character, all of them digits. *)
Definition isdigit (s : string) : bool :=
  match s with
  | EmptyString => false
  | _ => all_digits s
  end.

Fixpoint digits_value (acc : Z) (s : string) : option Z :=
  match s with
  | EmptyString => Some acc
  | String a s' =>
      match Ascii.is_nat a with
      | Some d => digits_value (10 * acc + Z.of_nat d) s'
      | None => None
      end
  end.

Definition unsigned (s : string) : option Z :=
  match s with
  | EmptyString => None
  | _ => digits_value 0 s
  end.

(** [int(s)] in base ten: surrounding whitespace is ignored, one sign is
    allowed, then at least one digit; [None] stands for [ValueError]. *)
Definition int (s : string) : option Z :=
  match strip s with
  | String "-" d => Z.opp <$> unsigned d
  | String "+" d => unsigned d
  | d => unsigned d
  end.

(** The lines of a text, each with its terminating newline when it has
    one: what iterating over a file, or [readlines()], yields. *)
Fixpoint readlines_go (cur : option string) (s : string) : list string :=
  match s with
  | EmptyString => option_list (String.rev <$> cur)
  | String a s' =>
      let line := String a (default EmptyString cur) in
      if Ascii.eqb a LF
      then String.rev line :: readlines_go None s'
      else readlines_go (Some line) s'
  end.

Definition readlines (s : string) : list string := readlines_go None s.

(** [f.readline()] on a freshly opened file: the first line, or the empty
    string at end of file. *)
Definition readline (s : string) : string :=
  default EmptyString (head (readlines s)).

End PyStr.


(** ** Outcomes, events and the state of the running module *)

(** The exceptions the module can meet. *)
Inductive exn : Set :=
| IOError      (* a file under /proc cannot be opened or read *)
| OSError      (* a helper process cannot be started *)
| KeyError     (* missing dictionary key, unknown uid *)
| ValueError   (* [str.index] without a match, [int] of a non-number *)
| IndexError   (* list index out of range *)
| TypeError    (* a value of the wrong type *)
| GError.      (* failure reported by Gio *)

Inductive outcome (A : Type) : Type :=
| Ok (a : A)
| Raise (e : exn).
Arguments Ok {A} a.
Arguments Raise {A} e.

Inductive signal : Set := SIGTERM.

(** What the module takes from outside the repository: the values Python
    hands over as module parameters, with their comparison and their
    rendering by [str.format], and the typed values of GLib
    ([GLib.Variant]).  [Variant t v] is [GLib.Variant(t, v)]; [None] means
    that [v] cannot be encoded with type string [t]. *)
Class GiRepository : Type := {
  pyval : Type;
  variant : Type;
  py_eqb : pyval -> pyval -> bool;
  py_format : pyval -> string;
  get_type_string : variant -> string;
  unpack : variant -> pyval;
  Variant : string -> pyval -> option variant
}.

(** A snapshot of what the operating system answers. *)
Record os_world : Type := {
  (** [os.listdir('/proc')], in the order the system lists it *)
  proc_listing : list string;
  (** text of [/proc/<pid>/status]; [None] when it cannot be read *)
  proc_status : string -> option string;
  (** text of [/proc/<pid>/environ]; [None] when it cannot be read *)
  proc_environ_file : string -> option string;
  (** [os.getuid()] *)
  getuid : Z;
  (** [pwd.getpwuid(uid).pw_name]; [None] when the uid is unknown *)
  getpwuid : Z -> option string;
  (** standard output of [dbus-launch]; [None] when it cannot be started *)
  dbus_launch : option string;
  (** whether [Gio.bus_get_sync] connects, given [DBUS_SESSION_BUS_ADDRESS] *)
  bus_get_sync : option string -> bool;
  (** whether [from gi.repository import Gio, GLib] succeeded *)
  HAS_GIO : bool
}.

Definition UID : nat := 1.
Definition ENV_DBUS : string := "DBUS_SESSION_BUS_ADDRESS".
Definition SESSION_MANAGERS : list string :=
  ["gnome-session"; "mate-session"; "xfce4-session";
   "cinnamon-session"; "icewm-session"; "openbox-session"]%string.

(** [x in l] for a list of strings. *)
Definition py_in (x : string) (l : list string) : bool :=
  existsb (String.eqb x) l.

(** [self.session_pid] holds the integer [-1] until a process is chosen and
    a string (a name under [/proc], or the pid printed by the helper)
    afterwards. *)
Inductive pid_field : Type :=
| PidInt (z : Z)
| PidStr (s : string).

(** [self.session_pid != -1]: a string never equals an integer. *)
Definition ne_minus_one (p : pid_field) : bool :=
  match p with
  | PidInt z => negb (z =? -1)
  | PidStr _ => true
  end.

Section WithGi.
Context `{GiRepository}.

(** Key of one value of the configuration store. *)
Definition store_key : Type := string * option string * string.

Inductive event : Type :=
| EvPopen (cmd : string)                 (* subprocess.Popen(cmd, ...) *)
| EvBusGet (address : option string)     (* Gio.bus_get_sync *)
| EvSleep (seconds : Z)                  (* time.sleep *)
| EvKill (pid : Z) (sig : signal)        (* os.kill *)
| EvSetValue (k : store_key) (v : variant). (* Gio.Settings.set_value *)

Record state : Type := {
  os_environ : gmap string string;
  dconf : gmap store_key variant;
  change_msgs : list string;
  trace : list event
}.

(** Computations: a state in, an outcome and a state out. *)
Definition M (A : Type) : Type := state -> outcome A * state.

Definition ret {A} (a : A) : M A := fun st => (Ok a, st).
Definition raise {A} (e : exn) : M A := fun st => (Raise e, st).
Definition bind {A B} (c : M A) (k : A -> M B) : M B :=
  fun st =>
    match c st with
    | (Ok a, st') => k a st'
    | (Raise e, st') => (Raise e, st')
    end.
Definition lift {A} (o : outcome A) : M A := fun st => (o, st).

Definition emit (e : event) : M unit :=
  fun st => (Ok tt, {| os_environ := os_environ st; dconf := dconf st;
                       change_msgs := change_msgs st;
                       trace := trace st ++ [e] |}).
(** [os.environ[k] = v] *)
Definition setenv (k v : string) : M unit :=
  fun st => (Ok tt, {| os_environ := <[k := v]> (os_environ st);
                       dconf := dconf st;
                       change_msgs := change_msgs st;
                       trace := trace st |}).
(** [os.environ[k]] *)
Definition getenv (k : string) : M string :=
  fun st => match os_environ st !! k with
            | Some v => (Ok v, st)
            | None => (Raise KeyError, st)
            end.
Definition write_store (k : store_key) (v : variant) : M unit :=
  fun st => (Ok tt, {| os_environ := os_environ st;
                       dconf := <[k := v]> (dconf st);
                       change_msgs := change_msgs st;
                       trace := trace st ++ [EvSetValue k v] |}).
Definition read_store (k : store_key) : M variant :=
  fun st => match dconf st !! k with
            | Some v => (Ok v, st)
            | None => (Raise GError, st)
            end.
(** [change_msgs.append(m)] *)
Definition append_msg (m : string) : M unit :=
  fun st => (Ok tt, {| os_environ := os_environ st; dconf := dconf st;
                       change_msgs := change_msgs st ++ [m];
                       trace := trace st |}).

End WithGi.

Notation "'let*' x ':=' c 'in' k" := (bind c (fun x => k))
  (at level 10, x name, c at level 100, k at level 200).

(** ** class Gsettings *)

Module Gsettings.
Section WithWorld.
Context `{GiRepository}.
Variable w : os_world.

(** The attributes of an instance. *)
Record self : Type := {
  session_pid : pid_field;
  _cleanup : bool;
  bus : option string  (* the address the bus handle was obtained for *)
}.

(** [proc_name(pid)]: the first line of the status record that contains
    "Name", cut at its colons, second piece, stripped.  Every exception
    (unreadable file, no colon) is turned into [None]. *)
Definition proc_name (pid : string) : option string :=
  match proc_status w pid with
  | None => None
  | Some text =>
      match List.find (PyStr.contains "Name") (PyStr.readlines text) with
      | Some attr => PyStr.strip <$> (PyStr.split ":" attr !! 1%nat)
      | None => None
      end
  end.

(** [proc_owner(pid)]: nothing is caught here; a status record without a
    line starting with "Uid:" gives Python's [None]. *)
Definition proc_owner (pid : string) : outcome (option string) :=
  match proc_status w pid with
  | None => Raise IOError
  | Some text =>
      match List.find (fun ln => PyStr.startswith ln "Uid:")
                      (PyStr.readlines text) with
      | None => Ok None
      | Some ln =>
          match PyStr.split_ws ln !! UID with
          | None => Raise IndexError
          | Some field =>
              match PyStr.int field with
              | None => Raise ValueError
              | Some uid =>
                  match getpwuid w uid with
                  | None => Raise KeyError
                  | Some name => Ok (Some name)
                  end
              end
          end
      end
  end.

(** The loop of [proc_environ] over the pieces of the environment text. *)
Fixpoint proc_environ_loop (varname : string) (pieces : list string)
  : option string :=
  match pieces with
  | [] => None
  | env_var :: rest =>
      if negb (String.eqb varname "") then
        let prefix := String.append varname "=" in
        if PyStr.startswith env_var prefix
        then Some (PyStr.replace prefix "" env_var)
        else proc_environ_loop varname rest
      else proc_environ_loop varname rest
  end.

(** [proc_environ(pid, varname)]: one [readline()] of the environment
    file, split at the NUL bytes. *)
Definition proc_environ (pid varname : string) : outcome (option string) :=
  match proc_environ_file w pid with
  | None => Raise IOError
  | Some text =>
      let env := PyStr.readline text in
      Ok (proc_environ_loop varname (PyStr.split PyStr.NUL env))
  end.

Definition bus_address (pid : string) : outcome (option string) :=
  proc_environ pid ENV_DBUS.

(** The loop of [new_session] over the lines the helper printed. *)
Fixpoint new_session_loop (lines : list string) : M unit :=
  match lines with
  | [] => ret tt
  | env_string :: rest =>
      match PyStr.index "=" env_string with
      | None => raise ValueError
      | Some i =>
          let env_var := PyStr.take i env_string in
          let env_value := PyStr.drop (i + 1) env_string in
          let* _ := setenv env_var env_value in
          new_session_loop rest
      end
  end.

Definition new_session : M string :=
  let* _ := emit (EvPopen "dbus-launch") in
  match dbus_launch w with
  | None => raise OSError
  | Some out =>
      let* _ := new_session_loop (PyStr.readlines out) in
      let* pid := getenv "DBUS_SESSION_BUS_PID" in
      ret (PyStr.replace (String PyStr.LF "") "" pid)
  end.

(** The scan of [/proc]: every entry with a numeric name whose process
    name is a known session manager is assigned to [session_pid]. *)
Fixpoint scan (listing : list string) (session_pid : pid_field) : pid_field :=
  match listing with
  | [] => session_pid
  | procfile :: rest =>
      if PyStr.isdigit procfile then
        match proc_name procfile with
        | Some name =>
            if py_in name SESSION_MANAGERS
            then scan rest (PidStr procfile)
            else scan rest session_pid
        | None => scan rest session_pid
        end
      else scan rest session_pid
  end.

(** [proc_owner(self.session_pid)]; the argument is a string whenever the
    call is reached. *)
Definition owner_of (p : pid_field) : outcome (option string) :=
  match p with
  | PidStr s => proc_owner s
  | PidInt z => Raise IOError
  end.

Definition bus_address_of (p : pid_field) : outcome (option string) :=
  match p with
  | PidStr s => bus_address s
  | PidInt z => Raise IOError
  end.

(** [Gio.bus_get_sync(Gio.BusType.SESSION, None)]: the session bus is
    found through [DBUS_SESSION_BUS_ADDRESS] of the calling process. *)
Definition bus_get : M (option string) :=
  fun st =>
    let address := os_environ st !! ENV_DBUS in
    (let* _ := emit (EvBusGet address) in
     if bus_get_sync w address then ret address else raise GError) st.

Definition __init__ : M self :=
  let pid := scan (proc_listing w) (PidInt (-1)) in
  match getpwuid w (getuid w) with
  | None => raise KeyError
  | Some osuser =>
      let* sessionuser :=
        (if ne_minus_one pid
         then lift (owner_of pid)
         else ret (Some osuser)) in
      let* this :=
        (if ne_minus_one pid && bool_decide (Some osuser = sessionuser)
         then
           let* addr := lift (bus_address_of pid) in
           match addr with
           | None => raise TypeError
           | Some a =>
               let* _ := setenv ENV_DBUS a in
               ret {| session_pid := pid; _cleanup := false; bus := None |}
           end
         else
           let* launched := new_session in
           ret {| session_pid := PidStr launched; _cleanup := true;
                  bus := None |}) in
      let* handle := bus_get in
      ret {| session_pid := session_pid this; _cleanup := _cleanup this;
             bus := handle |}
  end.

(** [int(self.session_pid)] *)
Definition int_of_pid (p : pid_field) : outcome Z :=
  match p with
  | PidInt z => Ok z
  | PidStr s =>
      match PyStr.int s with
      | Some z => Ok z
      | None => Raise ValueError
      end
  end.

Definition __del__ (this : self) : M unit :=
  if _cleanup this then
    let* _ := emit (EvSleep 1) in
    let* pid := lift (int_of_pid (session_pid this)) in
    emit (EvKill pid SIGTERM)
  else ret tt.

(** The first lines of [get_value] and of [set_value]: the instance path
    is taken out of the schema identifier. *)
Definition schema_path (schema : string) : outcome (string * option string) :=
  if PyStr.contains ":" schema then
    match PyStr.split ":" schema !! 1%nat, PyStr.split ":" schema !! 0%nat with
    | Some path, Some schema' => Ok (schema', Some path)
    | _, _ => Raise IndexError
    end
  else Ok (schema, None).

(** [get_value(self, schema, key)]; a schema or key the store does not
    have is a failure of Gio. *)
Definition get_value (this : self) (schema key : string) : M variant :=
  let* sp := lift (schema_path schema) in
  read_store (sp.1, sp.2, key).

(** [set_value(self, schema, key, value)] *)
Definition set_value (this : self) (schema key : string) (value : variant)
  : M unit :=
  let* sp := lift (schema_path schema) in
  write_store (sp.1, sp.2, key) value.

End WithWorld.
End Gsettings.

(** ** main *)

Section Main.
Context `{GiRepository}.
Variable w : os_world.

(** One entry of the [settings] parameter. *)
Record triplet : Type := {
  schema : string;
  key : string;
  value : pyval
}.

(** How the module ends: [module.exit_json] or [module.fail_json]. *)
Inductive exit : Type :=
| exit_json (rc : Z) (changed : bool) (msg : list string)
| fail_json (rc : Z) (msg : string).

Definition proposed_msg (schema key : string) (old_value value : pyval) : string :=
  schema +:+ "/" +:+ key +:+ " -> current: " +:+ py_format old_value
         +:+ " ; proposed new: " +:+ py_format value.

Definition applied_msg (schema key : string) (old_value value : pyval) : string :=
  schema +:+ "/" +:+ key +:+ " -> old: " +:+ py_format old_value
         +:+ " ; new: " +:+ py_format value.

(** The body of the [for gsetting in gsettings] loop, with [has_changed]
    passed along. *)
Definition main_step (gs : Gsettings.self) (check_mode : bool)
    (gsetting : triplet) (has_changed : bool) : M bool :=
  let schema := schema gsetting in
  let key := key gsetting in
  let value := value gsetting in
  let* old_setting := Gsettings.get_value gs schema key in
  let setting_type := get_type_string old_setting in
  let old_value := unpack old_setting in
  if negb (py_eqb old_value value) then
    if check_mode then
      let* _ := append_msg (proposed_msg schema key old_value value) in
      ret true
    else
      match Variant setting_type value with
      | None => raise TypeError
      | Some new_value =>
          let* _ := Gsettings.set_value gs schema key new_value in
          let* _ := append_msg (applied_msg schema key old_value value) in
          ret true
      end
  else ret has_changed.

Fixpoint main_loop (gs : Gsettings.self) (check_mode : bool)
    (gsettings : list triplet) (has_changed : bool) : M bool :=
  match gsettings with
  | [] => ret has_changed
  | gsetting :: rest =>
      let* has_changed' := main_step gs check_mode gsetting has_changed in
      main_loop gs check_mode rest has_changed'
  end.

(** An exception raised by [__del__] is reported on the error stream and
    ignored by the interpreter. *)
Definition finalize (gs : Gsettings.self) : M unit :=
  fun st => (Ok tt, (Gsettings.__del__ gs st).2).

Definition read_msgs : M (list string) :=
  fun st => (Ok (change_msgs st), st).

Definition main (check_mode : bool) (gsettings : list triplet) : M exit :=
  if negb (HAS_GIO w) then
    ret (fail_json 1 "The python PyGObject module is a required dependency.")
  else
    let* gs := Gsettings.__init__ w in
    let* has_changed := main_loop gs check_mode gsettings false in
    let* _ := finalize gs in
    let* msgs := read_msgs in
    ret (exit_json 0 has_changed msgs).

End Main.

(** ** A small instance of the outside interface, and sample worlds

    Booleans, integers, strings and lists of strings, with the GVariant
    type strings [b], [i], [s] and [as].  Python compares [True] and [1]
    as equal. *)

Module Sample.

Inductive val : Type :=
| VBool (b : bool)
| VInt (z : Z)
| VStr (s : string)
| VStrs (l : list string).

Definition val_eqb (a b : val) : bool :=
  match a, b with
  | VBool x, VBool y => Bool.eqb x y
  | VInt x, VInt y => x =? y
  | VBool x, VInt y | VInt y, VBool x => (if x then 1 else 0) =? y
  | VStr x, VStr y => String.eqb x y
  | VStrs x, VStrs y => bool_decide (x = y)
  | _, _ => false
  end.

Definition val_format (a : val) : string :=
  match a with
  | VBool true => "True"
  | VBool false => "False"
  | VInt z => pretty z
  | VStr s => s
  | VStrs l => "[" +:+ String.concat ", " ((fun s => "'" +:+ s +:+ "'") <$> l) +:+ "]"
  end.

Definition encode (t : string) (v : val) : option (string * val) :=
  match v with
  | VBool _ => if String.eqb t "b" then Some (t, v) else None
  | VInt _ => if String.eqb t "i" then Some (t, v) else None
  | VStr _ => if String.eqb t "s" then Some (t, v) else None
  | VStrs _ => if String.eqb t "as" then Some (t, v) else None
  end.

#[export] Instance gi : GiRepository := {|
  pyval := val;
  variant := string * val;
  py_eqb := val_eqb;
  py_format := val_format;
  get_type_string := fst;
  unpack := snd;
  Variant := encode
|}.

Definition TAB : string := String "009" "".
Definition LF : string := String PyStr.LF "".
Definition NUL : string := String PyStr.NUL "".

Definition status_text (name uid : string) : string :=
  "Name:" +:+ TAB +:+ name +:+ LF +:+
  "State:" +:+ TAB +:+ "S (sleeping)" +:+ LF +:+
  "Uid:" +:+ TAB +:+ uid +:+ TAB +:+ uid +:+ TAB +:+ uid +:+ TAB +:+ uid +:+ LF.

Definition passwd (uid : Z) : option string :=
  if uid =? 0 then Some "root"
  else if uid =? 1000 then Some "janedoe"
  else if uid =? 1001 then Some "guest"
  else None.

Definition launch_output : string :=
  "DBUS_SESSION_BUS_ADDRESS=unix:abstract=/tmp/dbus-Xq3,guid=0f5c" +:+ LF +:+
  "DBUS_SESSION_BUS_PID=4321" +:+ LF.

(** No session manager is running. *)
Definition bare : os_world := {|
  proc_listing := ["1"; "cpuinfo"; "77"; "self"];
  proc_status := fun pid =>
    if String.eqb pid "1" then Some (status_text "systemd" "0")
    else if String.eqb pid "77" then Some (status_text "sshd" "0")
    else None;
  proc_environ_file := fun _ => None;
  getuid := 1000;
  getpwuid := passwd;
  dbus_launch := Some launch_output;
  bus_get_sync := fun a => bool_decide (is_Some a);
  HAS_GIO := true
|}.

(** A desktop: one session of the caller, environment given by [env]. *)
Definition desktop (env : option string) : os_world := {|
  proc_listing := ["1"; "812"; "cpuinfo"; "900"];
  proc_status := fun pid =>
    if String.eqb pid "1" then Some (status_text "systemd" "0")
    else if String.eqb pid "812" then Some (status_text "gnome-session" "1000")
    else if String.eqb pid "900" then Some (status_text "bash" "1000")
    else None;
  proc_environ_file := fun pid => if String.eqb pid "812" then env else None;
  getuid := 1000;
  getpwuid := passwd;
  dbus_launch := Some launch_output;
  bus_get_sync := fun a => bool_decide (is_Some a);
  HAS_GIO := true
|}.

(** Two session managers: one of the caller, a later one of a guest. *)
Definition two_sessions : os_world := {|
  proc_listing := ["1"; "812"; "cpuinfo"; "2040"];
  proc_status := fun pid =>
    if String.eqb pid "1" then Some (status_text "systemd" "0")
    else if String.eqb pid "812" then Some (status_text "gnome-session" "1000")
    else if String.eqb pid "2040" then Some (status_text "xfce4-session" "1001")
    else None;
  proc_environ_file := fun pid =>
    if String.eqb pid "812"
    then Some ("HOME=/home/janedoe" +:+ NUL +:+
               "DBUS_SESSION_BUS_ADDRESS=unix:path=/run/user/1000/bus" +:+ NUL)
    else None;
  getuid := 1000;
  getpwuid := passwd;
  dbus_launch := Some launch_output;
  bus_get_sync := fun a => bool_decide (is_Some a);
  HAS_GIO := true
|}.

Definition good_env : string :=
  "HOME=/home/janedoe" +:+ NUL +:+
  "DBUS_SESSION_BUS_ADDRESS=unix:path=/run/user/1000/bus" +:+ NUL +:+
  "LANG=C" +:+ NUL.

(** An exported shell function puts a newline inside the block. *)
Definition env_with_newline : string :=
  "BASH_FUNC_ll%%=() {  ls -l" +:+ LF +:+ "}" +:+ NUL +:+
  "DBUS_SESSION_BUS_ADDRESS=unix:path=/run/user/1000/bus" +:+ NUL.

(** A value that repeats the name of its own variable. *)
Definition env_with_repeat : string :=
  "JAVA_OPTS=-Dopts=JAVA_OPTS=-Xmx1g" +:+ NUL +:+ "LANG=C" +:+ NUL.

(** A relocatable schema with the path of a terminal profile. *)
Definition profile_schema : string :=
  "org.gnome.Terminal.Legacy.Profile:/org/gnome/terminal/legacy/profiles:/:b1dcc9dd-5262-4d8d-a863-c897e6d979b9/".

Definition st0 : state := {|
  os_environ := {[ "HOME" := "/root" ]};
  dconf := {[ ("org.gnome.desktop.screensaver", None, "lock-enabled") := ("b", VBool false);
              ("org.gnome.desktop.session", None, "idle-delay") := ("i", VInt 300) ]};
  change_msgs := [];
  trace := []
|}.


Definition launched_address : string := "unix:abstract=/tmp/dbus-Xq3,guid=0f5c".

(** The instance built in [bare]: the daemon is its own. *)
Definition ephemeral_gs : Gsettings.self := {|
  Gsettings.session_pid := PidStr "4321";
  Gsettings._cleanup := true;
  Gsettings.bus := Some (launched_address +:+ LF)
|}.

Definition lock_on : triplet := {|
  schema := "org.gnome.desktop.screensaver"; key := "lock-enabled";
  value := VBool true |}.

(** A string where the store holds a boolean. *)
Definition lock_yes : triplet := {|
  schema := "org.gnome.desktop.screensaver"; key := "lock-enabled";
  value := VStr "yes" |}.

Definition idle_600 : triplet := {|
  schema := "org.gnome.desktop.session"; key := "idle-delay";
  value := VInt 600 |}.

(** The setting as the store has it. *)
Definition lock_off : triplet := {|
  schema := "org.gnome.desktop.screensaver"; key := "lock-enabled";
  value := VBool false |}.


(** A session manager whose uid is not in the user database. *)
Definition orphan_session : os_world := {|
  proc_listing := ["1"; "812"];
  proc_status := fun pid =>
    if String.eqb pid "1" then Some (status_text "systemd" "0")
    else if String.eqb pid "812" then Some (status_text "gnome-session" "4242")
    else None;
  proc_environ_file := fun _ => None;
  getuid := 1000;
  getpwuid := passwd;
  dbus_launch := Some launch_output;
  bus_get_sync := fun a => bool_decide (is_Some a);
  HAS_GIO := true
|}.

(** A helper that prints a remark after the address. *)
Definition chatty_helper : os_world := {|
  proc_listing := proc_listing bare;
  proc_status := proc_status bare;
  proc_environ_file := proc_environ_file bare;
  getuid := 1000;
  getpwuid := passwd;
  dbus_launch := Some ("DBUS_SESSION_BUS_ADDRESS=unix:path=/tmp/bus" +:+ LF +:+
                       "dbus-launch: no display" +:+ LF +:+
                       "DBUS_SESSION_BUS_PID=4321" +:+ LF);
  bus_get_sync := bus_get_sync bare;
  HAS_GIO := true
|}.

(** A helper that prints the address only. *)
Definition silent_helper : os_world := {|
  proc_listing := proc_listing bare;
  proc_status := proc_status bare;
  proc_environ_file := proc_environ_file bare;
  getuid := 1000;
  getpwuid := passwd;
  dbus_launch := Some ("DBUS_SESSION_BUS_ADDRESS=unix:path=/tmp/bus" +:+ LF);
  bus_get_sync := bus_get_sync bare;
  HAS_GIO := true
|}.

(** A process started from inside another bus session. *)
Definition st_inside_session : state := {|
  os_environ := {[ "DBUS_SESSION_BUS_PID" := "999" ]};
  dconf := ∅;
  change_msgs := [];
  trace := []
|}.

(** The instance built in [desktop (Some good_env)]. *)
Definition reused_gs : Gsettings.self := {|
  Gsettings.session_pid := PidStr "812";
  Gsettings._cleanup := false;
  Gsettings.bus := Some "unix:path=/run/user/1000/bus"
|}.

End Sample.

(** ** Vocabulary of the properties *)

(** The events a computation added to the trace. *)
Definition new_events `{GiRepository} (before after : state) : list event :=
  drop (List.length (trace before)) (trace after).

(** The test the scan of [/proc] applies to one entry. *)
Definition is_session_manager (w : os_world) (procfile : string) : bool :=
  PyStr.isdigit procfile &&
  match Gsettings.proc_name w procfile with
  | Some name => py_in name SESSION_MANAGERS
  | None => false
  end.

(** The two branches of [__init__] after the ownership test, each followed
    by the connection to the bus. *)
Definition spawn_branch `{GiRepository} (w : os_world) : M Gsettings.self :=
  let* launched := Gsettings.new_session w in
  let* handle := Gsettings.bus_get w in
  ret {| Gsettings.session_pid := PidStr launched;
         Gsettings._cleanup := true;
         Gsettings.bus := handle |}.

Definition reuse_branch `{GiRepository} (w : os_world) (p a : string)
  : M Gsettings.self :=
  let* _ := setenv ENV_DBUS a in
  let* handle := Gsettings.bus_get w in
  ret {| Gsettings.session_pid := PidStr p;
         Gsettings._cleanup := false;
         Gsettings.bus := handle |}.

(** A state with more events on its trace. *)
Definition add_events `{GiRepository} (st : state) (evs : list event) : state :=
  {| os_environ := os_environ st; dconf := dconf st;
     change_msgs := change_msgs st; trace := trace st ++ evs |}.

(** A line of the helper's output that holds an "=". *)
Definition has_equals (line : string) : bool :=
  match PyStr.index "=" line with Some _ => true | None => false end.

(** The newline as a string. *)
Definition LF : string := String PyStr.LF "".

(** What the specification says of the environment extractor: the block is
    a NUL-delimited sequence of KEY=VALUE entries, and the answer is the
    value of the (first) entry of the requested name, all of the entry
    after "name=". *)
Fixpoint entries_value (name : string) (entries : list string) : option string :=
  match entries with
  | [] => None
  | entry :: rest =>
      if PyStr.startswith entry (name +:+ "=")
      then Some (PyStr.drop (String.length name + 1) entry)
      else entries_value name rest
  end.

Definition spec_environment_variable (block name : string) : option string :=
  entries_value name (PyStr.split PyStr.NUL block).

(** What the specification says of a schema identifier: it is split at the
    first ":" into the schema and the instance path. *)
Definition spec_split_first (ident : string) : string * option string :=
  match PyStr.index ":" ident with
  | Some i => (PyStr.take i ident, Some (PyStr.drop (i + 1) ident))
  | None => (ident, None)
  end.

(** The value the store holds for a triplet, if the store has its key. *)
Definition current `{GiRepository} (st : state) (t : triplet) : option variant :=
  match Gsettings.schema_path (schema t) with
  | Ok sp => dconf st !! ((sp.1, sp.2, key t) : store_key)
  | Raise _ => None
  end.

Definition readable `{GiRepository} (st : state) (t : triplet) : bool :=
  match current st t with Some _ => true | None => false end.

(** The triplet's desired value is not the one the store holds. *)
Definition differs `{GiRepository} (st : state) (t : triplet) : bool :=
  match current st t with
  | Some old => negb (py_eqb (unpack old) (value t))
  | None => false
  end.

(** The message a differing triplet gets in check mode. *)
Definition proposal `{GiRepository} (st : state) (t : triplet) : list string :=
  match current st t with
  | Some old =>
      if negb (py_eqb (unpack old) (value t))
      then [proposed_msg (schema t) (key t) (unpack old) (value t)]
      else []
  | None => []
  end.

Definition proposals `{GiRepository} (st : state) (settings : list triplet)
  : list string :=
  flat_map (proposal st) settings.

(** A state with more messages in [change_msgs]. *)
Definition add_msgs `{GiRepository} (st : state) (ms : list string) : state :=
  {| os_environ := os_environ st; dconf := dconf st;
     change_msgs := change_msgs st ++ ms; trace := trace st |}.

(** A list of events without a write to the store. *)
Definition no_write `{GiRepository} (evs : list event) : Prop :=
  forall k v, EvSetValue k v ∉ evs.

(** The tab as a string. *)
Definition TAB : string := String "009" "".

(** No whitespace character in the string. *)
Fixpoint no_space (s : string) : bool :=
  match s with
  | EmptyString => true
  | String a s' => negb (Ascii.is_space a) && no_space s'
  end.

(** The same world with other contents of the environment files. *)
Definition with_environ (w : os_world) (f : string -> option string) : os_world :=
  {| proc_listing := proc_listing w;
     proc_status := proc_status w;
     proc_environ_file := f;
     getuid := getuid w;
     getpwuid := getpwuid w;
     dbus_launch := dbus_launch w;
     bus_get_sync := bus_get_sync w;
     HAS_GIO := HAS_GIO w |}.

(** The key of the store a triplet is about. *)
Definition target `{GiRepository} (t : triplet) : option store_key :=
  match Gsettings.schema_path (schema t) with
  | Ok sp => Some (sp.1, sp.2, key t)
  | Raise _ => None
  end.

(** The event is a write to the store. *)
Definition is_write `{GiRepository} (e : event) : Prop :=
  exists k v, e = EvSetValue k v.

(** An entry of [/proc] the scan can look into: a numeric name and a
    status record that can be read. *)
Definition inspectable (w : os_world) (procfile : string) : bool :=
  PyStr.isdigit procfile &&
  match proc_status w procfile with Some _ => true | None => false end.

(** The state after a triplet was applied: the new value under its key,
    one message, one write event. *)
Definition applied_state `{GiRepository} (st : state) (k : store_key)
    (new : variant) (m : string) : state :=
  {| os_environ := os_environ st;
     dconf := <[k := new]> (dconf st);
     change_msgs := change_msgs st ++ [m];
     trace := trace st ++ [EvSetValue k new] |}.

(** The state after a successful reuse of the session at address [a]. *)
Definition reused_state `{GiRepository} (st : state) (a : string) : state :=
  {| os_environ := <[ENV_DBUS := a]> (os_environ st);
     dconf := dconf st;
     change_msgs := change_msgs st;
     trace := trace st ++ [EvBusGet (Some a)] |}.

(** ** Properties of the session discovery *)

Section Discovery.
Variable w : os_world.

Lemma scan_cons procfile rest d :
  Gsettings.scan w (procfile :: rest) d =
  Gsettings.scan w rest
    (if is_session_manager w procfile then PidStr procfile else d).
Proof.
  unfold is_session_manager. cbn [Gsettings.scan].
  destruct (PyStr.isdigit procfile); cbn [andb]; [|reflexivity].
  destruct (Gsettings.proc_name w procfile) as [name|]; [|reflexivity].
  destruct (py_in name SESSION_MANAGERS); reflexivity.
Qed.

Lemma scan_app l1 l2 d :
  Gsettings.scan w (l1 ++ l2) d = Gsettings.scan w l2 (Gsettings.scan w l1 d).
Proof.
  revert d. induction l1 as [|p l1 IH]; intros d; [reflexivity|].
  rewrite <- app_comm_cons, !scan_cons. apply IH.
Qed.

Lemma scan_no_match l d :
  forallb (fun q => negb (is_session_manager w q)) l = true ->
  Gsettings.scan w l d = d.
Proof.
  induction l as [|p l IH]; intros Hl; [reflexivity|].
  simpl in Hl. apply andb_prop in Hl as [Hp Hl].
  rewrite scan_cons. apply negb_true_iff in Hp. rewrite Hp. auto.
Qed.

(** Either no entry passes the test and the initial value is returned,
    or the result is the last entry that passes it. *)
Lemma scan_inv l d :
  (Gsettings.scan w l d = d /\
   forallb (fun q => negb (is_session_manager w q)) l = true) \/
  (exists l1 p l2,
      l = l1 ++ p :: l2 /\ is_session_manager w p = true /\
      forallb (fun q => negb (is_session_manager w q)) l2 = true /\
      Gsettings.scan w l d = PidStr p).
Proof.
  revert d. induction l as [|a l IH]; intros d.
  - left. split; reflexivity.
  - rewrite scan_cons.
    destruct (IH (if is_session_manager w a then PidStr a else d))
      as [[Hs Hall] | (l1 & p & l2 & -> & Hp & Hl2 & Hs)].
    + destruct (is_session_manager w a) eqn:Ha.
      * right. exists [], a, l. repeat split; assumption.
      * left. split; [assumption|]. simpl. rewrite Ha. assumption.
    + right. exists (a :: l1), p, l2. repeat split; assumption.
Qed.

(** C2, as amended: the discoverer keeps at most one process, and it is
    the LAST entry of the scan whose process name is a known session
    manager; when no entry qualifies, the sentinel [-1] is left. *)
Theorem discoverer_selects_last_match (l : list string) :
  match Gsettings.scan w l (PidInt (-1)) with
  | PidStr p =>
      exists l1 l2,
        l = l1 ++ p :: l2 /\ is_session_manager w p = true /\
        forallb (fun q => negb (is_session_manager w q)) l2 = true
  | PidInt z =>
      z = -1 /\ forallb (fun q => negb (is_session_manager w q)) l = true
  end.
Proof.
  destruct (scan_inv l (PidInt (-1)))
    as [[-> Hall] | (l1 & p & l2 & Hl & Hp & Hl2 & ->)].
  - split; [reflexivity | assumption].
  - exists l1, l2. repeat split; assumption.
Qed.

End Discovery.

(** C2, as stated, fails: with two session managers running, the first one
    in scan order is pid 812, and the process selected is pid 2040. *)
Lemma first_match_is_not_selected :
  List.find (is_session_manager Sample.two_sessions)
            (proc_listing Sample.two_sessions) = Some "812"%string /\
  Gsettings.scan Sample.two_sessions (proc_listing Sample.two_sessions)
                 (PidInt (-1)) = PidStr "2040".
Proof. split; vm_compute; reflexivity. Qed.

(** ** Properties of the session lifecycle *)

Section Lifecycle.
Context `{GiRepository}.
Variable w : os_world.

Lemma new_events_app (st st' : state) (evs : list event) :
  trace st' = trace st ++ evs -> new_events st st' = evs.
Proof. intros E. unfold new_events. rewrite E. apply drop_app_length. Qed.

Lemma new_session_loop_frame lines st :
  let st' := (Gsettings.new_session_loop lines st).2 in
  trace st' = trace st /\ dconf st' = dconf st /\
  change_msgs st' = change_msgs st.
Proof.
  revert st. induction lines as [|l lines IH]; intros st; simpl.
  - auto.
  - destruct (PyStr.index "=" l) as [i|]; [|simpl; auto].
    unfold bind, setenv. cbn beta iota.
    match goal with |- context [Gsettings.new_session_loop lines ?s] =>
      apply (IH s) end.
Qed.

Lemma new_session_trace st :
  trace (Gsettings.new_session w st).2 = trace st ++ [EvPopen "dbus-launch"].
Proof.
  unfold Gsettings.new_session, bind, emit.
  destruct (dbus_launch w) as [out|]; [|reflexivity].
  set (st1 := {| os_environ := os_environ st; dconf := dconf st;
                 change_msgs := change_msgs st;
                 trace := trace st ++ [EvPopen "dbus-launch"] |}).
  pose proof (new_session_loop_frame (PyStr.readlines out) st1) as [Ht _].
  destruct (Gsettings.new_session_loop (PyStr.readlines out) st1)
    as [[[]|e] st2]; simpl in *; [|assumption].
  unfold getenv. destruct (os_environ st2 !! _); simpl; assumption.
Qed.

Lemma bus_get_trace st :
  trace (Gsettings.bus_get w st).2 =
  trace st ++ [EvBusGet (os_environ st !! ENV_DBUS)].
Proof.
  unfold Gsettings.bus_get, bind, emit, ret, raise.
  destruct (bus_get_sync w _); reflexivity.
Qed.

Lemma spawn_branch_trace st :
  exists evs,
    trace (spawn_branch w st).2 = trace st ++ EvPopen "dbus-launch" :: evs.
Proof.
  unfold spawn_branch, bind.
  pose proof (new_session_trace st) as Ht.
  destruct (Gsettings.new_session w st) as [[launched|e] st1]; simpl in *.
  - pose proof (bus_get_trace st1) as Hb.
    destruct (Gsettings.bus_get w st1) as [[handle|e] st2]; simpl in *;
      exists [EvBusGet (os_environ st1 !! ENV_DBUS)];
      rewrite Hb, Ht, <- app_assoc; reflexivity.
  - exists []. assumption.
Qed.

Lemma spawn_branch_cleanup st this st' :
  spawn_branch w st = (Ok this, st') -> Gsettings._cleanup this = true.
Proof.
  unfold spawn_branch, bind, ret.
  destruct (Gsettings.new_session w st) as [[launched|e] st1]; [|discriminate].
  destruct (Gsettings.bus_get w st1) as [[handle|e] st2]; [|discriminate].
  intros [= <- _]. reflexivity.
Qed.

(** Without a candidate, [__init__] is the spawn branch. *)
Lemma init_no_candidate st osuser :
  getpwuid w (getuid w) = Some osuser ->
  Gsettings.scan w (proc_listing w) (PidInt (-1)) = PidInt (-1) ->
  Gsettings.__init__ w st = spawn_branch w st.
Proof.
  intros Hu Hs. unfold Gsettings.__init__, spawn_branch. rewrite Hu, Hs.
  unfold bind, ret, lift; simpl.
  destruct (Gsettings.new_session w st) as [[launched|e] st1]; [|reflexivity].
  destruct (Gsettings.bus_get w st1) as [[handle|e] st2]; reflexivity.
Qed.

(** With a candidate owned by somebody else (or by nobody the status
    record names), [__init__] is the spawn branch as well. *)
Lemma init_other_owner st osuser p owner :
  getpwuid w (getuid w) = Some osuser ->
  Gsettings.scan w (proc_listing w) (PidInt (-1)) = PidStr p ->
  Gsettings.proc_owner w p = Ok owner ->
  owner <> Some osuser ->
  Gsettings.__init__ w st = spawn_branch w st.
Proof.
  intros Hu Hs Ho Hne. unfold Gsettings.__init__, spawn_branch.
  rewrite Hu, Hs. unfold bind, ret, lift; simpl. rewrite Ho.
  rewrite bool_decide_eq_false_2 by congruence.
  destruct (Gsettings.new_session w st) as [[launched|e] st1]; [|reflexivity].
  destruct (Gsettings.bus_get w st1) as [[handle|e] st2]; reflexivity.
Qed.

(** With a candidate owned by the caller, [__init__] reads the bus
    address of the candidate and nothing is caught on the way. *)
Lemma init_same_owner st osuser p :
  getpwuid w (getuid w) = Some osuser ->
  Gsettings.scan w (proc_listing w) (PidInt (-1)) = PidStr p ->
  Gsettings.proc_owner w p = Ok (Some osuser) ->
  Gsettings.__init__ w st =
  match Gsettings.bus_address w p with
  | Raise e => (Raise e, st)
  | Ok None => (Raise TypeError, st)
  | Ok (Some a) => reuse_branch w p a st
  end.
Proof.
  intros Hu Hs Ho. unfold Gsettings.__init__, reuse_branch.
  rewrite Hu, Hs. unfold bind, ret, lift, raise; simpl. rewrite Ho.
  rewrite bool_decide_eq_true_2 by reflexivity.
  destruct (Gsettings.bus_address w p) as [[a|]|e]; reflexivity.
Qed.

(** C3: when no entry of the process list is a known session manager,
    discovery leaves no candidate ([session_pid] stays [-1]),
    construction is the spawn branch, whose first action is to start
    [dbus-launch], and every instance it returns is flagged for
    clean-up ([ephemeral = true]); it returns one whenever the launch and
    the connection succeed. *)
Theorem no_session_manager_spawns (st : state) (osuser : string) :
  getpwuid w (getuid w) = Some osuser ->
  forallb (fun q => negb (is_session_manager w q)) (proc_listing w) = true ->
  Gsettings.scan w (proc_listing w) (PidInt (-1)) = PidInt (-1) /\
  Gsettings.__init__ w st = spawn_branch w st /\
  (exists evs, trace (Gsettings.__init__ w st).2
               = trace st ++ EvPopen "dbus-launch" :: evs) /\
  (forall this st', Gsettings.__init__ w st = (Ok this, st') ->
                    Gsettings._cleanup this = true) /\
  (forall launched st1,
      Gsettings.new_session w st = (Ok launched, st1) ->
      bus_get_sync w (os_environ st1 !! ENV_DBUS) = true ->
      exists st',
        Gsettings.__init__ w st =
        (Ok {| Gsettings.session_pid := PidStr launched;
               Gsettings._cleanup := true;
               Gsettings.bus := os_environ st1 !! ENV_DBUS |}, st')).
Proof.
  intros Hu Hall.
  assert (Hs : Gsettings.scan w (proc_listing w) (PidInt (-1)) = PidInt (-1))
    by (apply scan_no_match; assumption).
  pose proof (init_no_candidate st osuser Hu Hs) as Hi.
  split; [assumption|]. split; [assumption|]. rewrite Hi.
  split; [apply spawn_branch_trace|].
  split; [intros this st'; apply spawn_branch_cleanup|].
  intros launched st1 Hn Hb. unfold spawn_branch, bind. rewrite Hn.
  unfold Gsettings.bus_get, bind, emit, ret. cbn [os_environ]. rewrite Hb.
  eexists. reflexivity.
Qed.


Lemma emit_run (e : event) (st : state) :
  emit e st = (Ok tt, add_events st [e]).
Proof. reflexivity. Qed.

Lemma add_events_twice (st : state) (a b : list event) :
  add_events (add_events st a) b = add_events st (a ++ b).
Proof. unfold add_events; simpl. rewrite <- app_assoc. reflexivity. Qed.

Lemma new_events_add (st : state) (evs : list event) :
  new_events st (add_events st evs) = evs.
Proof. apply new_events_app. reflexivity. Qed.

Lemma new_events_same (st : state) : new_events st st = [].
Proof. unfold new_events. apply drop_all. Qed.

(** What [__del__] does, case by case. *)
Lemma del_run (this : Gsettings.self) (st : state) :
  Gsettings.__del__ this st =
  if Gsettings._cleanup this then
    match Gsettings.int_of_pid (Gsettings.session_pid this) with
    | Ok pid => (Ok tt, add_events st [EvSleep 1; EvKill pid SIGTERM])
    | Raise e => (Raise e, add_events st [EvSleep 1])
    end
  else (Ok tt, st).
Proof.
  unfold Gsettings.__del__. destruct (Gsettings._cleanup this); [|reflexivity].
  unfold bind, lift. rewrite emit_run.
  destruct (Gsettings.int_of_pid (Gsettings.session_pid this)) as [pid|e];
    [|reflexivity].
  rewrite emit_run, add_events_twice. reflexivity.
Qed.

Lemma reuse_branch_inv p a st this st' :
  reuse_branch w p a st = (Ok this, st') ->
  Gsettings._cleanup this = false /\
  exists address, new_events st st' = [EvBusGet address].
Proof.
  unfold reuse_branch, bind, setenv, ret.
  match goal with |- context [Gsettings.bus_get w ?s] =>
    pose proof (bus_get_trace s) as Hb;
    destruct (Gsettings.bus_get w s) as [[handle|e] st2] end;
    [|discriminate].
  simpl in Hb. intros [= <- <-]. split; [reflexivity|].
  eexists. apply new_events_app. exact Hb.
Qed.

(** An instance [__init__] returns was built by one of the two branches. *)
Lemma init_cases st this st' :
  Gsettings.__init__ w st = (Ok this, st') ->
  spawn_branch w st = (Ok this, st') \/
  exists p a, reuse_branch w p a st = (Ok this, st').
Proof.
  intros Hi.
  destruct (getpwuid w (getuid w)) as [osuser|] eqn:Hu;
    [|unfold Gsettings.__init__ in Hi; rewrite Hu in Hi; discriminate].
  destruct (Gsettings.scan w (proc_listing w) (PidInt (-1))) as [z|p] eqn:Hs.
  - destruct (Z.eq_dec z (-1)) as [->|Hz].
    + left. rewrite <- Hi. symmetry. eapply init_no_candidate; eassumption.
    + destruct (scan_inv w (proc_listing w) (PidInt (-1)))
        as [[E _] | (l1 & q & l2 & _ & _ & _ & E)];
        rewrite Hs in E; [congruence | discriminate].
  - destruct (Gsettings.proc_owner w p) as [owner|e] eqn:Ho.
    + destruct (decide (owner = Some osuser)) as [->|Hne].
      * rewrite (init_same_owner st osuser p Hu Hs Ho) in Hi.
        destruct (Gsettings.bus_address w p) as [[a|]|e]; try discriminate.
        right. exists p, a. exact Hi.
      * left. rewrite <- Hi. symmetry. eapply init_other_owner; eassumption.
    + unfold Gsettings.__init__ in Hi. rewrite Hu, Hs in Hi.
      unfold bind, lift in Hi; simpl in Hi. rewrite Ho in Hi. discriminate.
Qed.

(** The flag [_cleanup] of an instance says whether its construction
    started [dbus-launch]. *)
Lemma cleanup_iff_launched st this st' :
  Gsettings.__init__ w st = (Ok this, st') ->
  (Gsettings._cleanup this = true <->
   EvPopen "dbus-launch" ∈ new_events st st').
Proof.
  intros Hi. destruct (init_cases st this st' Hi) as [Hsp | (p & a & Hre)].
  - pose proof (spawn_branch_cleanup st this st' Hsp) as Hc.
    destruct (spawn_branch_trace st) as [evs Ht]. rewrite Hsp in Ht.
    simpl in Ht.
    rewrite (new_events_app _ _ _ Ht). split; [intros _|auto].
    apply list_elem_of_here.
  - destruct (reuse_branch_inv p a st this st' Hre) as [Hc [address Hn]].
    rewrite Hn, Hc. split; [discriminate|].
    intros Hin. apply list_elem_of_singleton in Hin. discriminate.
Qed.

(** C4: disposal of an instance that is not flagged for clean-up does
    nothing at all, so a termination signal sent on disposal implies the
    flag; and the flag is set on an instance [__init__] returned exactly
    when that construction started the daemon helper. *)
Theorem disposal_signals_only_ephemeral (this : Gsettings.self) (st : state) :
  (Gsettings._cleanup this = false ->
   Gsettings.__del__ this st = (Ok tt, st)) /\
  (forall pid sig,
      EvKill pid sig ∈ new_events st (Gsettings.__del__ this st).2 ->
      Gsettings._cleanup this = true) /\
  (forall st0 st1,
      Gsettings.__init__ w st0 = (Ok this, st1) ->
      (Gsettings._cleanup this = true <->
       EvPopen "dbus-launch" ∈ new_events st0 st1)).
Proof.
  split; [|split].
  - intros Hc. rewrite del_run, Hc. reflexivity.
  - intros pid sig. rewrite del_run.
    destruct (Gsettings._cleanup this); [reflexivity|].
    simpl. rewrite new_events_same. intros Hin.
    apply not_elem_of_nil in Hin. contradiction.
  - intros st0 st1. apply cleanup_iff_launched.
Qed.

(** C5: whenever disposal sends a signal, the events of the disposal are
    exactly a sleep of one second followed by that signal, which is
    SIGTERM to the pid held by the instance: the wait comes first. *)
Theorem disposal_waits_before_signal (this : Gsettings.self) (st : state)
    (before after : list event) (pid : Z) (sig : signal) :
  new_events st (Gsettings.__del__ this st).2
    = before ++ EvKill pid sig :: after ->
  before = [EvSleep 1] /\ after = [] /\ sig = SIGTERM /\
  Gsettings._cleanup this = true /\
  Gsettings.int_of_pid (Gsettings.session_pid this) = Ok pid.
Proof.
  rewrite del_run.
  destruct (Gsettings._cleanup this).
  - destruct (Gsettings.int_of_pid (Gsettings.session_pid this)) as [pid'|e];
      simpl; rewrite new_events_add; intros E.
    + destruct before as [|b1 [|b2 before]]; simpl in E.
      * discriminate.
      * injection E as -> <- <- <-. repeat split; reflexivity.
      * injection E as _ _ E. destruct before; discriminate.
    + destruct before as [|b1 before]; simpl in E; [discriminate|].
      injection E as _ E. destruct before; discriminate.
  - simpl. rewrite new_events_same. intros E. destruct before; discriminate.
Qed.

End Lifecycle.


(** ** Properties of the string primitives *)

Section Strings.

Lemma append_nil (t : string) : EmptyString +:+ t = t.
Proof. reflexivity. Qed.

Lemma append_cons (a : ascii) (s t : string) :
  String a s +:+ t = String a (s +:+ t).
Proof. reflexivity. Qed.

Lemma index_append (c : ascii) (k rest : string) :
  PyStr.index c k = None ->
  PyStr.index c (k +:+ String c rest) = Some (String.length k).
Proof.
  induction k as [|a k IH]; simpl; intros Hk.
  - rewrite Ascii.eqb_refl. reflexivity.
  - destruct (Ascii.eqb a c); [discriminate|].
    destruct (PyStr.index c k); [discriminate|].
    rewrite IH by reflexivity. reflexivity.
Qed.

Lemma take_append (k rest : string) :
  PyStr.take (String.length k) (k +:+ rest) = k.
Proof.
  induction k as [|a k IH]; simpl.
  - destruct rest; reflexivity.
  - rewrite IH. reflexivity.
Qed.

Lemma drop_append (k rest : string) (c : ascii) :
  PyStr.drop (String.length k + 1) (k +:+ String c rest) = rest.
Proof. induction k as [|a k IH]; simpl; [reflexivity | exact IH]. Qed.

(** A string is cut at the first occurrence of a character into what
    [take] and [drop] give. *)
Lemma index_cut (c : ascii) (s : string) (i : nat) :
  PyStr.index c s = Some i ->
  s = PyStr.take i s +:+ String c (PyStr.drop (i + 1) s) /\
  PyStr.index c (PyStr.take i s) = None.
Proof.
  revert i. induction s as [|a s IH]; simpl; intros i Hi; [discriminate|].
  destruct (Ascii.eqb a c) eqn:E.
  - injection Hi as <-. apply Ascii.eqb_eq in E as ->. split; reflexivity.
  - destruct (PyStr.index c s) as [j|]; [|discriminate].
    injection Hi as <-. destruct (IH j eq_refl) as [Hs Hn]. simpl.
    rewrite append_cons, <- Hs, E, Hn. split; reflexivity.
Qed.

Lemma prefix_append (p rest : string) : String.prefix p (p +:+ rest) = true.
Proof.
  induction p as [|a p IH]; simpl.
  - destruct rest; reflexivity.
  - destruct (ascii_dec a a); [exact IH | contradiction].
Qed.

Lemma append_assoc (a b c : string) : (a +:+ b) +:+ c = a +:+ (b +:+ c).
Proof.
  induction a as [|x a IH]; [reflexivity|].
  rewrite !append_cons, IH. reflexivity.
Qed.

(** A line whose key (the text before its first "=") is [k] starts with
    [k] followed by "=". *)
Lemma key_startswith (l k : string) (i : nat) :
  PyStr.index "=" l = Some i -> PyStr.take i l = k ->
  PyStr.startswith l (k +:+ "=") = true.
Proof.
  intros Hi Hk. destruct (index_cut _ _ _ Hi) as [Hl _].
  rewrite Hk in Hl. unfold PyStr.startswith. rewrite Hl at 1.
  change (String "=" (PyStr.drop (i + 1) l))
    with ("=" +:+ PyStr.drop (i + 1) l).
  rewrite <- append_assoc. apply prefix_append.
Qed.

End Strings.

(** ** Properties of the ephemeral daemon launcher *)

Section Launcher.
Context `{GiRepository}.
Variable w : os_world.

Lemma new_session_loop_app (l1 l2 : list string) (st : state) :
  Gsettings.new_session_loop (l1 ++ l2) st =
  match Gsettings.new_session_loop l1 st with
  | (Ok _, st1) => Gsettings.new_session_loop l2 st1
  | (Raise e, st1) => (Raise e, st1)
  end.
Proof.
  revert st. induction l1 as [|l l1 IH]; intros st; [reflexivity|].
  rewrite <- app_comm_cons. cbn [Gsettings.new_session_loop].
  destruct (PyStr.index "=" l) as [i|]; [|reflexivity].
  unfold bind, setenv. cbn beta iota. apply IH.
Qed.

(** Lines that all hold an "=" are all installed. *)
Lemma new_session_loop_ok (lines : list string) (st : state) :
  forallb has_equals lines = true ->
  exists st', Gsettings.new_session_loop lines st = (Ok tt, st').
Proof.
  revert st. induction lines as [|l lines IH]; intros st Hl.
  - eexists. reflexivity.
  - simpl in Hl. apply andb_prop in Hl as [Hh Hl].
    cbn [Gsettings.new_session_loop]. unfold has_equals in Hh.
    destruct (PyStr.index "=" l) as [i|]; [|discriminate].
    unfold bind, setenv. apply IH. assumption.
Qed.

(** Lines of other variables leave a variable as it is. *)
Lemma new_session_loop_other (k : string) (lines : list string) (st : state) :
  forallb (fun l => negb (PyStr.startswith l (k +:+ "="))) lines = true ->
  os_environ (Gsettings.new_session_loop lines st).2 !! k = os_environ st !! k.
Proof.
  revert st. induction lines as [|l lines IH]; intros st Hl; [reflexivity|].
  simpl in Hl. apply andb_prop in Hl as [Hk Hl].
  cbn [Gsettings.new_session_loop].
  destruct (PyStr.index "=" l) as [i|] eqn:Hi; [|reflexivity].
  unfold bind, setenv. rewrite IH by assumption. simpl.
  apply lookup_insert_ne. intros Heq.
  rewrite (key_startswith l k i Hi Heq) in Hk. discriminate.
Qed.

(** One line [k=v]: the variable [k] receives [v], all of the line after
    its first "=". *)
Lemma new_session_loop_line (k v : string) (st : state) :
  PyStr.index "=" k = None ->
  Gsettings.new_session_loop [k +:+ "=" +:+ v] st =
  (Ok tt, {| os_environ := <[k := v]> (os_environ st); dconf := dconf st;
             change_msgs := change_msgs st; trace := trace st |}).
Proof.
  intros Hk. cbn [Gsettings.new_session_loop].
  change ("=" +:+ v) with (String "=" v).
  rewrite (index_append "=" k v Hk), take_append, drop_append.
  reflexivity.
Qed.

(** C10: a line [k=a] followed by a newline, the last one the helper
    prints for [k], leaves [a] WITH the newline as the value of [k] in
    the environment of the calling process; the value handed back by
    [new_session] is that of DBUS_SESSION_BUS_PID with its newlines taken
    out, while the environment keeps them. *)
Theorem launcher_keeps_trailing_newline (st : state) (out : string)
    (pre post : list string) (k a : string) :
  dbus_launch w = Some out ->
  PyStr.readlines out = pre ++ (k +:+ "=" +:+ a +:+ LF) :: post ->
  PyStr.index "=" k = None ->
  forallb has_equals (pre ++ post) = true ->
  forallb (fun l => negb (PyStr.startswith l (k +:+ "="))) post = true ->
  exists st1,
    Gsettings.new_session_loop (PyStr.readlines out)
      (add_events st [EvPopen "dbus-launch"]) = (Ok tt, st1) /\
    os_environ st1 !! k = Some (a +:+ LF) /\
    Gsettings.new_session w st =
    match os_environ st1 !! "DBUS_SESSION_BUS_PID" with
    | Some v => (Ok (PyStr.replace LF "" v), st1)
    | None => (Raise KeyError, st1)
    end.
Proof.
  intros Hout Hlines Hk Heq Hpost.
  rewrite forallb_app in Heq. apply andb_prop in Heq as [Hpre Hpost_eq].
  set (st0 := add_events st [EvPopen "dbus-launch"]).
  destruct (new_session_loop_ok pre st0 Hpre) as [sta Ha].
  pose proof (new_session_loop_line k (a +:+ LF) sta Hk) as Hb.
  set (stb := {| os_environ := <[k := a +:+ LF]> (os_environ sta);
                 dconf := dconf sta; change_msgs := change_msgs sta;
                 trace := trace sta |}) in Hb.
  destruct (new_session_loop_ok post stb Hpost_eq) as [stc Hc].
  assert (Hloop : Gsettings.new_session_loop (PyStr.readlines out) st0
                  = (Ok tt, stc)).
  { rewrite Hlines, new_session_loop_app, Ha.
    change (?x :: post) with ([x] ++ post).
    rewrite new_session_loop_app, Hb. exact Hc. }
  exists stc. split; [exact Hloop|]. split.
  - pose proof (new_session_loop_other k post stb Hpost) as Ho.
    rewrite Hc in Ho. simpl in Ho. rewrite Ho. apply lookup_insert_eq.
  - unfold Gsettings.new_session. rewrite Hout. unfold bind at 1.
    rewrite emit_run. fold st0. unfold bind at 1. rewrite Hloop.
    unfold bind, getenv, ret.
    destruct (os_environ stc !! "DBUS_SESSION_BUS_PID"); reflexivity.
Qed.

End Launcher.

(** ** Properties of the environment extractor and of the schema split *)

Section Extractor.

Lemma append_nil_r (s : string) : s +:+ "" = s.
Proof.
  induction s as [|a s IH]; [reflexivity|].
  rewrite append_cons, IH. reflexivity.
Qed.

Lemma rev_app_rev_app (s c t : string) :
  String.rev_app (String.rev_app s c) t = String.rev_app c (s +:+ t).
Proof.
  revert c t. induction s as [|a s IH]; intros c t; [reflexivity|].
  cbn [String.rev_app]. rewrite IH. reflexivity.
Qed.

Lemma readlines_go_no_newline (c s : string) :
  PyStr.index PyStr.LF s = None ->
  PyStr.readlines_go (Some c) s = [String.rev (String.rev_app s c)].
Proof.
  revert c. induction s as [|a s IH]; intros c Hs; [reflexivity|].
  cbn [PyStr.index] in Hs. cbn [PyStr.readlines_go default].
  destruct (Ascii.eqb a PyStr.LF); [discriminate|].
  destruct (PyStr.index PyStr.LF s); [discriminate|].
  rewrite IH by reflexivity. reflexivity.
Qed.

(** A text without a newline is its own first line. *)
Lemma readline_no_newline (s : string) :
  PyStr.index PyStr.LF s = None -> PyStr.readline s = s.
Proof.
  destruct s as [|a s]; [reflexivity|]. intros Hs.
  unfold PyStr.readline, PyStr.readlines. cbn [PyStr.index] in Hs.
  cbn [PyStr.readlines_go default].
  destruct (Ascii.eqb a PyStr.LF); [discriminate|].
  destruct (PyStr.index PyStr.LF s) eqn:E; [discriminate|].
  rewrite (readlines_go_no_newline _ _ E). cbn [head default].
  unfold String.rev. rewrite rev_app_rev_app. cbn [String.rev_app].
  rewrite append_nil_r. reflexivity.
Qed.

Lemma replace_go_skip (old new p v : string) :
  PyStr.replace_go old new (String.length p) (p +:+ v)
  = PyStr.replace_go old new 0 v.
Proof.
  induction p as [|b p IH]; [reflexivity|].
  rewrite append_cons. cbn [String.length PyStr.replace_go]. exact IH.
Qed.

Lemma replace_go_absent (old new v : string) :
  PyStr.contains old v = false -> PyStr.replace_go old new 0 v = v.
Proof.
  induction v as [|b v IH]; [reflexivity|].
  cbn [PyStr.contains PyStr.replace_go]. intros Hc.
  apply orb_false_elim in Hc as [Hp Hc]. rewrite Hp, (IH Hc). reflexivity.
Qed.

(** Removing a prefix with [replace] gives the rest when the rest does not
    hold the prefix again. *)
Lemma replace_prefix (old v : string) :
  old <> EmptyString ->
  PyStr.contains old v = false ->
  PyStr.replace old "" (old +:+ v) = v.
Proof.
  intros Hne Hc. destruct old as [|a p]; [contradiction|].
  unfold PyStr.replace. rewrite append_cons. cbn [PyStr.replace_go].
  rewrite <- append_cons, prefix_append.
  unfold PyStr.len. cbn [String.length].
  replace (S (String.length p) - 1)%nat with (String.length p) by lia.
  rewrite replace_go_skip, (replace_go_absent _ _ _ Hc). reflexivity.
Qed.

Lemma prefix_cut (p s : string) :
  String.prefix p s = true -> s = p +:+ PyStr.drop (String.length p) s.
Proof.
  revert s. induction p as [|a p IH]; intros s Hp; [reflexivity|].
  destruct s as [|b s]; [discriminate|]. cbn [String.prefix] in Hp.
  destruct (ascii_dec a b) as [->|]; [|discriminate].
  rewrite append_cons. cbn [String.length PyStr.drop].
  rewrite <- (IH s Hp). reflexivity.
Qed.

Lemma length_append (a b : string) :
  String.length (a +:+ b) = (String.length a + String.length b)%nat.
Proof.
  induction a as [|x a IH]; [reflexivity|].
  rewrite append_cons. cbn [String.length]. rewrite IH. reflexivity.
Qed.

(** On entries whose value does not hold "name=" again, the loop of
    [proc_environ] finds what the specification describes. *)
Lemma proc_environ_loop_spec (name : string) (entries : list string) :
  name <> EmptyString ->
  (forall e, e ∈ entries ->
             PyStr.startswith e (name +:+ "=") = true ->
             PyStr.contains (name +:+ "=")
               (PyStr.drop (String.length name + 1) e) = false) ->
  Gsettings.proc_environ_loop name entries = entries_value name entries.
Proof.
  intros Hn. induction entries as [|e entries IH]; intros He; [reflexivity|].
  cbn [Gsettings.proc_environ_loop entries_value].
  assert (En : String.eqb name "" = false) by (apply String.eqb_neq; exact Hn).
  rewrite En. cbn [negb].
  destruct (PyStr.startswith e (name +:+ "=")) eqn:Hp.
  - f_equal. pose proof (He e (list_elem_of_here _ _) Hp) as Hc.
    pose proof (prefix_cut _ _ Hp) as Hcut.
    rewrite length_append in Hcut. cbn [String.length] in Hcut.
    rewrite Hcut at 1. apply replace_prefix; [|exact Hc].
    destruct name; [contradiction | discriminate].
  - apply IH. intros e' Hin. apply He. apply list_elem_of_further. exact Hin.
Qed.

(** The extractor answers as specified on a block without a newline whose
    values do not repeat "name=". *)
Lemma proc_environ_spec (w : os_world) (pid block name : string) :
  proc_environ_file w pid = Some block ->
  PyStr.index PyStr.LF block = None ->
  name <> EmptyString ->
  (forall e, e ∈ PyStr.split PyStr.NUL block ->
             PyStr.startswith e (name +:+ "=") = true ->
             PyStr.contains (name +:+ "=")
               (PyStr.drop (String.length name + 1) e) = false) ->
  Gsettings.proc_environ w pid name = Ok (spec_environment_variable block name).
Proof.
  intros Hf Hlf Hn He. unfold Gsettings.proc_environ, spec_environment_variable.
  rewrite Hf, (readline_no_newline _ Hlf).
  rewrite (proc_environ_loop_spec name _ Hn He). reflexivity.
Qed.

Lemma split_index (c : ascii) (s : string) :
  PyStr.split c s =
  match PyStr.index c s with
  | Some i => PyStr.take i s :: PyStr.split c (PyStr.drop (i + 1) s)
  | None => [s]
  end.
Proof.
  induction s as [|a s IH]; [reflexivity|].
  cbn [PyStr.split PyStr.index].
  destruct (Ascii.eqb a c); [reflexivity|].
  rewrite IH. destruct (PyStr.index c s) as [i|]; reflexivity.
Qed.

Lemma contains_char (c : ascii) (s : string) :
  PyStr.contains (String c "") s =
  match PyStr.index c s with Some _ => true | None => false end.
Proof.
  induction s as [|a s IH]; [reflexivity|].
  cbn [PyStr.contains PyStr.index String.prefix].
  destruct (ascii_dec c a) as [->|Hne].
  - rewrite Ascii.eqb_refl. destruct s; reflexivity.
  - assert (E : Ascii.eqb a c = false)
      by (apply Ascii.eqb_neq; congruence).
    rewrite E, IH. cbn [orb].
    destruct (PyStr.index c s); reflexivity.
Qed.

(** What [get_value] and [set_value] make of a schema identifier: the
    schema is the text before the first ":", the path is the text between
    the first ":" and the next one (or the end); nothing is raised. *)
Lemma schema_path_spec (ident : string) :
  Gsettings.schema_path ident =
  Ok match spec_split_first ident with
     | (schema, Some rest) => (schema, Some (spec_split_first rest).1)
     | (schema, None) => (schema, None)
     end.
Proof.
  unfold Gsettings.schema_path, spec_split_first.
  rewrite contains_char, split_index.
  destruct (PyStr.index ":" ident) as [i|]; [|reflexivity].
  cbn [lookup list_lookup]. rewrite split_index.
  destruct (PyStr.index ":" (PyStr.drop (i + 1) ident)); reflexivity.
Qed.

(** With a single ":" the split is the specified one. *)
Lemma schema_path_single_colon (ident : string) (i : nat) :
  PyStr.index ":" ident = Some i ->
  PyStr.index ":" (PyStr.drop (i + 1) ident) = None ->
  Gsettings.schema_path ident = Ok (spec_split_first ident).
Proof.
  intros Hi Hrest. rewrite schema_path_spec. unfold spec_split_first.
  rewrite Hi, Hrest. reflexivity.
Qed.

(** C8 fails on the code, by two slips of [proc_environ].  Only the first
    line of the environment file is read, so an entry that comes after a
    newline inside the block is not found; and the prefix "name=" is
    removed wherever it occurs in the entry, not only at its start, so a
    value that contains it comes back shortened. *)
Theorem proc_environ_misses_the_value :
  (spec_environment_variable Sample.env_with_newline ENV_DBUS
     = Some "unix:path=/run/user/1000/bus"%string /\
   Gsettings.proc_environ (Sample.desktop (Some Sample.env_with_newline))
     "812" ENV_DBUS = Ok None) /\
  (spec_environment_variable Sample.env_with_repeat "JAVA_OPTS"
     = Some "-Dopts=JAVA_OPTS=-Xmx1g"%string /\
   Gsettings.proc_environ (Sample.desktop (Some Sample.env_with_repeat))
     "812" "JAVA_OPTS" = Ok (Some "-Dopts=-Xmx1g"%string)).
Proof. repeat split; vm_compute; reflexivity. Qed.

(** C6 fails on the code for an identifier with a second ":": the path
    handed to the store stops there, the rest of the identifier is
    dropped. *)
Theorem schema_path_drops_the_rest :
  spec_split_first Sample.profile_schema
    = ("org.gnome.Terminal.Legacy.Profile"%string,
       Some "/org/gnome/terminal/legacy/profiles:/:b1dcc9dd-5262-4d8d-a863-c897e6d979b9/"%string) /\
  Gsettings.schema_path Sample.profile_schema
    = Ok ("org.gnome.Terminal.Legacy.Profile"%string,
          Some "/org/gnome/terminal/legacy/profiles"%string).
Proof. split; vm_compute; reflexivity. Qed.

End Extractor.


(** ** Properties of the settings loop *)

Section Batch.
Context `{GiRepository}.
Variable w : os_world.

Lemma get_value_current gs (t : triplet) (st : state) (old : variant) :
  current st t = Some old ->
  Gsettings.get_value gs (schema t) (key t) st = (Ok old, st).
Proof.
  unfold current, Gsettings.get_value, bind, lift, read_store.
  destruct (Gsettings.schema_path (schema t)) as [sp|e]; [|discriminate].
  intros Hc. cbn beta iota. rewrite Hc. reflexivity.
Qed.

Lemma get_value_missing gs (t : triplet) (st : state) :
  current st t = None ->
  (Gsettings.get_value gs (schema t) (key t) st).1
  = Raise match Gsettings.schema_path (schema t) with
          | Raise e => e
          | Ok _ => GError
          end.
Proof.
  unfold current, Gsettings.get_value, bind, lift, read_store.
  destruct (Gsettings.schema_path (schema t)) as [sp|e]; [|reflexivity].
  intros Hc. cbn beta iota. rewrite Hc. reflexivity.
Qed.

Lemma add_msgs_nil (st : state) : add_msgs st [] = st.
Proof. destruct st. unfold add_msgs; simpl. rewrite app_nil_r. reflexivity. Qed.

Lemma add_msgs_twice (st : state) (a b : list string) :
  add_msgs (add_msgs st a) b = add_msgs st (a ++ b).
Proof. unfold add_msgs; simpl. rewrite <- app_assoc. reflexivity. Qed.

(** One turn of the loop in check mode, for a key the store has. *)
Lemma main_step_check gs (t : triplet) (hc : bool) (st : state) :
  readable st t = true ->
  main_step gs true t hc st = (Ok (hc || differs st t), add_msgs st (proposal st t)).
Proof.
  unfold readable, differs, proposal, main_step.
  destruct (current st t) as [old|] eqn:Hc; [intros _|discriminate].
  unfold bind at 1. rewrite (get_value_current gs t st old Hc).
  destruct (py_eqb (unpack old) (value t)); simpl.
  - rewrite orb_false_r, add_msgs_nil. reflexivity.
  - rewrite orb_true_r. reflexivity.
Qed.

(** The whole loop in check mode. *)
Lemma main_loop_check gs (settings : list triplet) (hc : bool) (st : state) :
  forallb (readable st) settings = true ->
  main_loop gs true settings hc st =
  (Ok (hc || existsb (differs st) settings), add_msgs st (proposals st settings)).
Proof.
  revert hc st. induction settings as [|t rest IH]; intros hc st Hr.
  - simpl. rewrite orb_false_r. unfold proposals; simpl.
    rewrite add_msgs_nil. reflexivity.
  - simpl in Hr. apply andb_prop in Hr as [Ht Hr].
    cbn [main_loop]. unfold bind. rewrite (main_step_check gs t hc st Ht).
    rewrite (IH _ (add_msgs st (proposal st t)) Hr).
    rewrite add_msgs_twice. simpl. rewrite orb_assoc. reflexivity.
Qed.

Lemma main_loop_app gs cm (l1 l2 : list triplet) (hc : bool) (st : state) :
  main_loop gs cm (l1 ++ l2) hc st =
  match main_loop gs cm l1 hc st with
  | (Ok hc1, st1) => main_loop gs cm l2 hc1 st1
  | (Raise e, st1) => (Raise e, st1)
  end.
Proof.
  revert hc st. induction l1 as [|t l1 IH]; intros hc st; [reflexivity|].
  rewrite <- app_comm_cons. cbn [main_loop]. unfold bind.
  destruct (main_step gs cm t hc st) as [[hc1|e] st1]; [apply IH | reflexivity].
Qed.

(** One turn of the loop, in either mode, when it does not raise. *)
Lemma main_step_changed gs cm (t : triplet) (hc hc1 : bool) (st st1 : state) :
  main_step gs cm t hc st = (Ok hc1, st1) ->
  hc1 = hc || differs st t.
Proof.
  unfold main_step, differs. unfold bind at 1.
  destruct (current st t) as [old|] eqn:Hc.
  - rewrite (get_value_current gs t st old Hc).
    destruct (py_eqb (unpack old) (value t)); simpl.
    + unfold ret. intros [= <- _]. rewrite orb_false_r. reflexivity.
    + rewrite orb_true_r. destruct cm.
      * unfold bind, append_msg, ret. intros [= <- _]. reflexivity.
      * destruct (Variant (get_type_string old) (value t));
          [|unfold raise; discriminate].
        unfold bind, Gsettings.set_value, lift, bind, write_store, append_msg, ret.
        destruct (Gsettings.schema_path (schema t)); [|discriminate].
        intros [= <- _]. reflexivity.
  - pose proof (get_value_missing gs t st Hc) as Hm.
    destruct (Gsettings.get_value gs (schema t) (key t) st) as [[v|e] st2];
      [discriminate Hm | discriminate].
Qed.

(** The flag the loop returns is set exactly when it was set before or some
    triplet differed from the store as it was when its turn came. *)
Lemma main_loop_changed gs cm (settings : list triplet) (hc changed : bool)
    (st st' : state) :
  main_loop gs cm settings hc st = (Ok changed, st') ->
  (changed = true <->
   hc = true \/
   exists i t hc_i st_i,
     settings !! i = Some t /\
     main_loop gs cm (take i settings) hc st = (Ok hc_i, st_i) /\
     differs st_i t = true).
Proof.
  revert hc st. induction settings as [|t rest IH]; intros hc st Hl.
  - simpl in Hl. injection Hl as <- <-. split; [auto|].
    intros [Hh | (i & t & hc_i & st_i & Hi & _)]; [assumption|].
    rewrite lookup_nil in Hi. discriminate.
  - cbn [main_loop] in Hl. unfold bind in Hl.
    destruct (main_step gs cm t hc st) as [[hc1|e] st1] eqn:Hs; [|discriminate].
    pose proof (main_step_changed gs cm t hc hc1 st st1 Hs) as Hh.
    rewrite (IH hc1 st1 Hl). split.
    + intros [H1 | (i & t' & hc_i & st_i & Hi & Hp & Hd)].
      * rewrite Hh in H1. apply orb_prop in H1 as [H1|H1]; [auto|].
        right. exists 0%nat, t, hc, st. repeat split; assumption.
      * right. exists (S i), t', hc_i, st_i. split; [exact Hi|].
        split; [|exact Hd]. cbn [take main_loop]. unfold bind. rewrite Hs.
        exact Hp.
    + intros [H1 | (i & t' & hc_i & st_i & Hi & Hp & Hd)].
      * left. rewrite Hh, H1. reflexivity.
      * destruct i as [|i].
        -- simpl in Hi, Hp. injection Hi as <-. injection Hp as <- <-.
           left. rewrite Hh, Hd. apply orb_true_r.
        -- right. exists i, t', hc_i, st_i. split; [exact Hi|].
           split; [|exact Hd]. cbn [take main_loop] in Hp. unfold bind in Hp.
           rewrite Hs in Hp. exact Hp.
Qed.

(** Construction and disposal leave the store and the messages alone, and
    what they add to the trace is no write to the store. *)
Lemma new_session_store (st : state) :
  dconf (Gsettings.new_session w st).2 = dconf st /\
  change_msgs (Gsettings.new_session w st).2 = change_msgs st.
Proof.
  unfold Gsettings.new_session, bind, emit.
  destruct (dbus_launch w) as [out|]; [|split; reflexivity].
  match goal with |- context [Gsettings.new_session_loop ?l ?s] =>
    pose proof (new_session_loop_frame l s) as (_ & Hd & Hm);
    destruct (Gsettings.new_session_loop l s) as [[[]|e] st2] end;
    simpl in *; [|split; assumption].
  unfold getenv. destruct (os_environ st2 !! _); simpl; split; assumption.
Qed.

Lemma bus_get_store (st : state) :
  dconf (Gsettings.bus_get w st).2 = dconf st /\
  change_msgs (Gsettings.bus_get w st).2 = change_msgs st.
Proof.
  unfold Gsettings.bus_get, bind, emit, ret, raise.
  destruct (bus_get_sync w _); split; reflexivity.
Qed.

Lemma init_frame (st st0 : state) gs :
  Gsettings.__init__ w st = (Ok gs, st0) ->
  dconf st0 = dconf st /\ change_msgs st0 = change_msgs st /\
  exists evs, trace st0 = trace st ++ evs /\ no_write evs.
Proof.
  intros Hi. destruct (init_cases w st gs st0 Hi) as [Hsp | (p & a & Hre)].
  - unfold spawn_branch, bind, ret in Hsp.
    pose proof (new_session_store st) as [Hd1 Hm1].
    pose proof (new_session_trace w st) as Ht1.
    destruct (Gsettings.new_session w st) as [[launched|e] st1];
      [|discriminate].
    pose proof (bus_get_store st1) as [Hd2 Hm2].
    pose proof (bus_get_trace w st1) as Ht2.
    destruct (Gsettings.bus_get w st1) as [[handle|e] st2]; [|discriminate].
    injection Hsp as _ <-. simpl in *.
    split; [congruence|]. split; [congruence|].
    eexists. split; [rewrite Ht2, Ht1, <- app_assoc; reflexivity|].
    intros k v Hin. simpl in Hin.
    repeat (apply elem_of_cons in Hin as [Hin|Hin]; [discriminate|]).
    apply not_elem_of_nil in Hin. exact Hin.
  - unfold reuse_branch, bind, setenv, ret in Hre.
    match type of Hre with context [Gsettings.bus_get w ?s] =>
      pose proof (bus_get_store s) as [Hd2 Hm2];
      pose proof (bus_get_trace w s) as Ht2;
      destruct (Gsettings.bus_get w s) as [[handle|e] st2] end;
      [|discriminate].
    injection Hre as _ <-. simpl in *.
    split; [assumption|]. split; [assumption|].
    eexists. split; [exact Ht2|].
    intros k v Hin.
    apply list_elem_of_singleton in Hin. discriminate.
Qed.

Lemma del_frame gs (st : state) :
  dconf (Gsettings.__del__ gs st).2 = dconf st /\
  change_msgs (Gsettings.__del__ gs st).2 = change_msgs st /\
  exists evs, trace (Gsettings.__del__ gs st).2 = trace st ++ evs /\ no_write evs.
Proof.
  rewrite del_run. destruct (Gsettings._cleanup gs).
  - destruct (Gsettings.int_of_pid (Gsettings.session_pid gs)) as [pid|e];
      simpl; (split; [reflexivity|]); (split; [reflexivity|]);
      eexists; (split; [reflexivity|]); intros k v Hin;
      repeat (apply elem_of_cons in Hin as [Hin|Hin]; [discriminate|]);
      apply not_elem_of_nil in Hin; exact Hin.
  - simpl. split; [reflexivity|]. split; [reflexivity|].
    exists []. split; [rewrite app_nil_r; reflexivity|].
    intros k v Hin. apply not_elem_of_nil in Hin. exact Hin.
Qed.

(** [main] once the instance is built: the loop, the disposal, the
    report. *)
Lemma main_run (cm : bool) (settings : list triplet) (st st0 : state) gs :
  HAS_GIO w = true ->
  Gsettings.__init__ w st = (Ok gs, st0) ->
  main w cm settings st =
  match main_loop gs cm settings false st0 with
  | (Ok has_changed, st1) =>
      (Ok (exit_json 0 has_changed (change_msgs st1)),
       (Gsettings.__del__ gs st1).2)
  | (Raise e, st1) => (Raise e, st1)
  end.
Proof.
  intros Hg Hi. unfold main. rewrite Hg. cbn [negb]. unfold bind at 1.
  rewrite Hi. unfold bind at 1.
  destruct (main_loop gs cm settings false st0) as [[hc|e] st1]; [|reflexivity].
  unfold bind, finalize, read_msgs, ret.
  destruct (del_frame gs st1) as (_ & -> & _). reflexivity.
Qed.

(** C9: in check mode, with every key of the list present in the store,
    [main] ends with [exit_json]; its [changed] flag is whether some
    triplet differs from the store, its messages are the "proposed new"
    lines of the differing triplets, in order; the store is the one it
    started from and no write was issued.  In either mode, the [changed]
    flag [main] reports is set exactly when some triplet differed from the
    store as it was when its turn came. *)
Theorem check_mode_proposes_without_writing (st st0 : state) gs
    (settings : list triplet) :
  HAS_GIO w = true ->
  Gsettings.__init__ w st = (Ok gs, st0) ->
  dconf st0 = dconf st /\
  (forallb (readable st0) settings = true ->
   exists st',
     main w true settings st =
     (Ok (exit_json 0 (existsb (differs st0) settings)
                    (change_msgs st0 ++ proposals st0 settings)), st') /\
     dconf st' = dconf st /\
     (forall k v, EvSetValue k v ∈ trace st' -> EvSetValue k v ∈ trace st)) /\
  (existsb (differs st0) settings = true <->
   exists t, t ∈ settings /\ differs st0 t = true) /\
  (forall cm rc changed msgs st',
      main w cm settings st = (Ok (exit_json rc changed msgs), st') ->
      (changed = true <->
       exists i t hc_i st_i,
         settings !! i = Some t /\
         main_loop gs cm (take i settings) false st0 = (Ok hc_i, st_i) /\
         differs st_i t = true)).
Proof.
  intros Hg Hi.
  destruct (init_frame st st0 gs Hi) as (Hd0 & Hm0 & ievs & Ht0 & Hnw0).
  split; [exact Hd0|]. split; [|split].
  - intros Hr. rewrite (main_run true settings st st0 gs Hg Hi).
    rewrite (main_loop_check gs settings false st0 Hr). cbn [orb].
    destruct (del_frame gs (add_msgs st0 (proposals st0 settings)))
      as (Hd1 & Hm1 & devs & Ht1 & Hnw1).
    eexists. split; [reflexivity|]. split.
    + rewrite Hd1. exact Hd0.
    + intros k v Hin. rewrite Ht1 in Hin. cbn [add_msgs trace] in Hin.
      rewrite Ht0 in Hin.
      apply elem_of_app in Hin as [Hin|Hin]; [|destruct (Hnw1 k v Hin)].
      apply elem_of_app in Hin as [Hin|Hin]; [exact Hin|].
      destruct (Hnw0 k v Hin).
  - rewrite existsb_exists. split; intros (t & Hin & Hd); exists t;
      (split; [|exact Hd]); apply list_elem_of_In; exact Hin.
  - intros cm rc changed msgs st'.
    rewrite (main_run cm settings st st0 gs Hg Hi).
    destruct (main_loop gs cm settings false st0) as [[hc|e] st1] eqn:Hl;
      [|discriminate].
    intros [= _ <- _ _].
    rewrite (main_loop_changed gs cm settings false hc st0 st1 Hl).
    split; [intros [Hf|Hex]; [discriminate | exact Hex] | auto].
Qed.

(** C7, as amended: in apply mode, when the turn comes to a triplet whose
    value differs from the store and cannot be encoded with the type of
    the current value, the [TypeError] is not caught: [main] ends with it,
    in the state the earlier triplets left; the later triplets are not
    looked at and there is no [exit_json] report. *)
Theorem type_mismatch_aborts_batch (st st0 st1 : state) gs
    (pre post : list triplet) (t : triplet) (hc1 : bool) (old : variant) :
  HAS_GIO w = true ->
  Gsettings.__init__ w st = (Ok gs, st0) ->
  main_loop gs false pre false st0 = (Ok hc1, st1) ->
  current st1 t = Some old ->
  py_eqb (unpack old) (value t) = false ->
  Variant (get_type_string old) (value t) = None ->
  main w false (pre ++ t :: post) st = (Raise TypeError, st1).
Proof.
  intros Hg Hi Hpre Hc Hne Henc.
  rewrite (main_run false _ st st0 gs Hg Hi), main_loop_app, Hpre.
  cbn [main_loop]. unfold bind at 1. unfold main_step. unfold bind at 1.
  rewrite (get_value_current gs t st1 old Hc), Hne. cbn [negb].
  rewrite Henc. reflexivity.
Qed.

End Batch.


(** ** The theorems at work on the sample worlds *)

(** A pair is its first component and whatever its second is. *)
Lemma pair_eta {A B : Type} (p : A * B) (a : A) : p.1 = a -> p = (a, p.2).
Proof. intros <-. destruct p; reflexivity. Defined.

(** No session manager in [bare]: the instance is the ephemeral one. *)
Lemma no_session_manager_spawns_witness :
  forallb (fun q => negb (is_session_manager Sample.bare q))
          (proc_listing Sample.bare) = true /\
  Gsettings.scan Sample.bare (proc_listing Sample.bare) (PidInt (-1))
    = PidInt (-1) /\
  exists st',
    (Gsettings.__init__ Sample.bare Sample.st0) = (Ok Sample.ephemeral_gs, st').
Proof.
  split; [vm_compute; reflexivity|].
  destruct (no_session_manager_spawns Sample.bare Sample.st0 "janedoe"
              eq_refl ltac:(vm_compute; reflexivity)) as (Hs & _ & _ & _ & Hex).
  split; [exact Hs|].
  destruct (Hex "4321"%string (Gsettings.new_session Sample.bare Sample.st0).2)
    as [st' Hst'].
  - apply pair_eta. vm_compute. reflexivity.
  - vm_compute. reflexivity.
  - exists st'. exact Hst'.
Defined.


(** Disposal of the ephemeral instance: one second, then SIGTERM to 4321. *)
Lemma disposal_waits_before_signal_witness :
  new_events Sample.st0 (Gsettings.__del__ Sample.ephemeral_gs Sample.st0).2
    = [EvSleep 1] ++ EvKill 4321 SIGTERM :: [] /\
  Gsettings._cleanup Sample.ephemeral_gs = true /\
  Gsettings.int_of_pid (Gsettings.session_pid Sample.ephemeral_gs) = Ok 4321.
Proof.
  assert (E : new_events Sample.st0
                (Gsettings.__del__ Sample.ephemeral_gs Sample.st0).2
              = [EvSleep 1] ++ EvKill 4321 SIGTERM :: []) by reflexivity.
  split; [exact E|].
  destruct (disposal_waits_before_signal Sample.ephemeral_gs Sample.st0
              [EvSleep 1] [] 4321 SIGTERM E) as (_ & _ & _ & Hc & Hp).
  split; [exact Hc | exact Hp].
Defined.

(** The address line of the sample output keeps its newline in the
    environment; the pid comes back as "4321". *)
Lemma launcher_keeps_trailing_newline_witness :
  os_environ (Gsettings.new_session Sample.bare Sample.st0).2 !! ENV_DBUS
    = Some (Sample.launched_address +:+ LF) /\
  (Gsettings.new_session Sample.bare Sample.st0).1 = Ok "4321"%string.
Proof.
  destruct (launcher_keeps_trailing_newline Sample.bare Sample.st0
              Sample.launch_output [] ["DBUS_SESSION_BUS_PID=4321" +:+ LF]
              ENV_DBUS Sample.launched_address
              eq_refl ltac:(vm_compute; reflexivity)
              ltac:(vm_compute; reflexivity) ltac:(vm_compute; reflexivity)
              ltac:(vm_compute; reflexivity))
    as (st1 & Hloop & Henv & Hret).
  split.
  - rewrite Hret.
    destruct (os_environ st1 !! "DBUS_SESSION_BUS_PID"%string); exact Henv.
  - vm_compute. reflexivity.
Defined.

(** Check mode on one differing triplet: reported, not written. *)
Lemma check_mode_proposes_without_writing_witness :
  (main Sample.bare true [Sample.lock_on] Sample.st0).1 =
  Ok (exit_json 0 true
        ["org.gnome.desktop.screensaver/lock-enabled -> current: False ; proposed new: True"%string]) /\
  dconf (main Sample.bare true [Sample.lock_on] Sample.st0).2 = dconf Sample.st0.
Proof.
  destruct (check_mode_proposes_without_writing Sample.bare Sample.st0
              (Gsettings.__init__ Sample.bare Sample.st0).2
              Sample.ephemeral_gs [Sample.lock_on] eq_refl
              (pair_eta _ _ ltac:(vm_compute; reflexivity)))
    as (_ & Hcheck & _).
  destruct (Hcheck ltac:(vm_compute; reflexivity)) as (st' & Hm & Hd & _).
  rewrite Hm. split; [|exact Hd].
  cbn [fst]. f_equal.
Defined.

(** A string for a boolean setting, first in the list. *)
Lemma type_mismatch_aborts_batch_witness :
  main Sample.bare false [Sample.lock_yes; Sample.idle_600] Sample.st0
  = (Raise TypeError, (Gsettings.__init__ Sample.bare Sample.st0).2).
Proof.
  apply (type_mismatch_aborts_batch Sample.bare Sample.st0
           (Gsettings.__init__ Sample.bare Sample.st0).2
           (Gsettings.__init__ Sample.bare Sample.st0).2
           Sample.ephemeral_gs [] [Sample.idle_600] Sample.lock_yes false
           ("b"%string, Sample.VBool false)).
  - reflexivity.
  - apply pair_eta. vm_compute. reflexivity.
  - reflexivity.
  - vm_compute. reflexivity.
  - vm_compute. reflexivity.
  - vm_compute. reflexivity.
Defined.

(** C7, as stated, fails: the first triplet cannot be encoded, the second
    one differs from the store and could be written; the run ends with the
    [TypeError], the second setting still has its old value and no message
    was recorded. *)
Lemma mismatch_stops_the_batch :
  (main Sample.bare false [Sample.lock_yes; Sample.idle_600] Sample.st0).1
    = Raise TypeError /\
  differs Sample.st0 Sample.idle_600 = true /\
  Variant "i" (value Sample.idle_600) = Some ("i"%string, Sample.VInt 600) /\
  dconf (main Sample.bare false [Sample.lock_yes; Sample.idle_600] Sample.st0).2
    !! ("org.gnome.desktop.session"%string, None, "idle-delay"%string)
    = Some ("i"%string, Sample.VInt 300) /\
  change_msgs
    (main Sample.bare false [Sample.lock_yes; Sample.idle_600] Sample.st0).2 = [].
Proof.
  split; [vm_compute; reflexivity|].
  split; [vm_compute; reflexivity|].
  split; [vm_compute; reflexivity|].
  split; vm_compute; reflexivity.
Qed.


(** ** Further properties of the discovery and of the construction *)

Section MoreLifecycle.
Context `{GiRepository}.
Variable w : os_world.

Lemma not_inspectable_not_manager (procfile : string) :
  inspectable w procfile = false -> is_session_manager w procfile = false.
Proof.
  unfold inspectable, is_session_manager, Gsettings.proc_name.
  destruct (PyStr.isdigit procfile); [|reflexivity].
  destruct (proc_status w procfile); [discriminate | reflexivity].
Qed.

(** X1: entries of [/proc] that are not numeric, and processes whose
    status record cannot be read, do not count: the scan gives what it
    gives on the list without them. *)
Theorem scan_skips_what_it_cannot_read (listing : list string) (d : pid_field) :
  Gsettings.scan w listing d
  = Gsettings.scan w (List.filter (inspectable w) listing) d.
Proof.
  revert d. induction listing as [|p listing IH]; intros d; [reflexivity|].
  cbn [List.filter]. destruct (inspectable w p) eqn:Hp.
  - rewrite !scan_cons. apply IH.
  - rewrite scan_cons, (not_inspectable_not_manager p Hp). apply IH.
Qed.

(** X2: reuse.  The candidate is owned by the caller, its environment
    holds a bus address and the bus answers: the instance refers to the
    candidate, is not flagged for clean-up, the address is installed in
    the environment of the calling process, and the only event is the
    connection; the helper is not started. *)
Theorem reuse_installs_address (st : state) (osuser p a : string) :
  getpwuid w (getuid w) = Some osuser ->
  Gsettings.scan w (proc_listing w) (PidInt (-1)) = PidStr p ->
  Gsettings.proc_owner w p = Ok (Some osuser) ->
  Gsettings.bus_address w p = Ok (Some a) ->
  bus_get_sync w (Some a) = true ->
  Gsettings.__init__ w st =
  (Ok {| Gsettings.session_pid := PidStr p;
         Gsettings._cleanup := false;
         Gsettings.bus := Some a |},
   reused_state st a).
Proof.
  intros Hu Hs Ho Ha Hb.
  rewrite (init_same_owner w st osuser p Hu Hs Ho), Ha.
  unfold reuse_branch, bind, setenv, Gsettings.bus_get, bind, emit, ret.
  cbn [os_environ]. rewrite lookup_insert_eq, Hb. reflexivity.
Qed.

(** X3: when there is no candidate, or the candidate is not the caller's
    (another owner, or a status record without a Uid line), construction
    does not look at any environment file: with other contents of these
    files it does the same, and what it does starts with the launch of
    the helper. *)
Theorem foreign_session_environment_is_not_read (st : state)
    (osuser : string) (f : string -> option string) :
  getpwuid w (getuid w) = Some osuser ->
  Gsettings.scan w (proc_listing w) (PidInt (-1)) = PidInt (-1) \/
  (exists p owner,
      Gsettings.scan w (proc_listing w) (PidInt (-1)) = PidStr p /\
      Gsettings.proc_owner w p = Ok owner /\ owner <> Some osuser) ->
  Gsettings.__init__ (with_environ w f) st = Gsettings.__init__ w st /\
  exists evs, trace (Gsettings.__init__ w st).2
              = trace st ++ EvPopen "dbus-launch" :: evs.
Proof.
  intros Hu Hc.
  assert (Hi : Gsettings.__init__ w st = spawn_branch w st).
  { destruct Hc as [Hs | (p & owner & Hs & Ho & Hne)].
    - eapply init_no_candidate; eassumption.
    - eapply init_other_owner; eassumption. }
  assert (Hi' : Gsettings.__init__ (with_environ w f) st
                = spawn_branch (with_environ w f) st).
  { destruct Hc as [Hs | (p & owner & Hs & Ho & Hne)].
    - apply (init_no_candidate (with_environ w f) st osuser Hu Hs).
    - apply (init_other_owner (with_environ w f) st osuser p owner Hu Hs Ho Hne). }
  split.
  - rewrite Hi, Hi'. reflexivity.
  - rewrite Hi. apply spawn_branch_trace.
Qed.

(** X4: a failure of [proc_owner] on the candidate (status record gone,
    Uid field not a number, uid unknown to the user database) is raised by
    the construction as it is: the state is untouched, nothing is
    launched. *)
Theorem owner_lookup_failure_is_raised (st : state) (osuser p : string)
    (e : exn) :
  getpwuid w (getuid w) = Some osuser ->
  Gsettings.scan w (proc_listing w) (PidInt (-1)) = PidStr p ->
  Gsettings.proc_owner w p = Raise e ->
  Gsettings.__init__ w st = (Raise e, st).
Proof.
  intros Hu Hs Ho. unfold Gsettings.__init__. rewrite Hu, Hs.
  unfold bind, lift; simpl. rewrite Ho. reflexivity.
Qed.

End MoreLifecycle.

(** ** Further properties of the launcher, the extractor and the store access *)

Section MoreLauncher.
Context `{GiRepository}.
Variable w : os_world.

(** X5: a line without "=" in the helper's output stops [new_session]
    with [ValueError]; the lines before it have been installed in the
    environment by then, the lines after it are not looked at. *)
Theorem launcher_stops_at_line_without_equals (st : state) (out : string)
    (pre post : list string) (bad : string) :
  dbus_launch w = Some out ->
  PyStr.readlines out = pre ++ bad :: post ->
  forallb has_equals pre = true ->
  has_equals bad = false ->
  exists st1,
    Gsettings.new_session_loop pre (add_events st [EvPopen "dbus-launch"])
      = (Ok tt, st1) /\
    Gsettings.new_session w st = (Raise ValueError, st1).
Proof.
  intros Hout Hlines Hpre Hbad.
  destruct (new_session_loop_ok pre (add_events st [EvPopen "dbus-launch"]) Hpre)
    as [st1 H1].
  exists st1. split; [exact H1|].
  unfold Gsettings.new_session. rewrite Hout. unfold bind at 1.
  rewrite emit_run. unfold bind at 1.
  rewrite Hlines, new_session_loop_app, H1.
  cbn [Gsettings.new_session_loop]. unfold has_equals in Hbad.
  destruct (PyStr.index "=" bad); [discriminate | reflexivity].
Qed.

(** X6: the pid [new_session] returns is read from the environment of the
    calling process after the lines were installed.  When the helper
    prints no DBUS_SESSION_BUS_PID line and the process already had that
    variable, the value it had is returned (newlines removed). *)
Theorem launcher_returns_inherited_pid (st : state) (out v : string) :
  dbus_launch w = Some out ->
  forallb has_equals (PyStr.readlines out) = true ->
  forallb (fun l => negb (PyStr.startswith l "DBUS_SESSION_BUS_PID="))
          (PyStr.readlines out) = true ->
  os_environ st !! "DBUS_SESSION_BUS_PID" = Some v ->
  (Gsettings.new_session w st).1 = Ok (PyStr.replace LF "" v).
Proof.
  intros Hout Heq Hpid Hv.
  set (st0 := add_events st [EvPopen "dbus-launch"]).
  destruct (new_session_loop_ok (PyStr.readlines out) st0 Heq) as [st1 H1].
  pose proof (new_session_loop_other "DBUS_SESSION_BUS_PID"
                (PyStr.readlines out) st0 Hpid) as Ho.
  rewrite H1 in Ho. cbn [snd] in Ho.
  unfold Gsettings.new_session. rewrite Hout. unfold bind at 1.
  rewrite emit_run. fold st0. unfold bind at 1. rewrite H1.
  unfold bind, getenv, ret. rewrite Ho. unfold st0. cbn [add_events os_environ].
  rewrite Hv. reflexivity.
Qed.

(** X7: on an environment block without a newline, and for a non-empty
    name whose "name=" does not occur again inside the value of its
    entries, [proc_environ] returns what the specification describes: the
    value of the first entry of that name, or nothing. *)
Theorem proc_environ_agrees_with_spec (pid block name : string) :
  proc_environ_file w pid = Some block ->
  PyStr.index PyStr.LF block = None ->
  name <> EmptyString ->
  forallb (fun e => negb (PyStr.startswith e (name +:+ "=")) ||
                    negb (PyStr.contains (name +:+ "=")
                            (PyStr.drop (String.length name + 1) e)))
          (PyStr.split PyStr.NUL block) = true ->
  Gsettings.proc_environ w pid name = Ok (spec_environment_variable block name).
Proof.
  intros Hf Hlf Hn Hall. apply (proc_environ_spec w pid block name Hf Hlf Hn).
  intros e He Hp. rewrite forallb_forall in Hall.
  apply list_elem_of_In in He. specialize (Hall e He).
  rewrite Hp in Hall. cbn [negb orb] in Hall.
  apply negb_true_iff in Hall. exact Hall.
Qed.

Lemma proc_environ_loop_empty_name (entries : list string) :
  Gsettings.proc_environ_loop "" entries = None.
Proof. induction entries as [|e entries IH]; [reflexivity | exact IH]. Qed.

(** X8: called with the default, empty, variable name, [proc_environ]
    finds nothing in any block it can read, also when the block has an
    entry that starts with "=". *)
Theorem proc_environ_empty_name (pid block : string) :
  proc_environ_file w pid = Some block ->
  Gsettings.proc_environ w pid "" = Ok None.
Proof.
  intros Hf. unfold Gsettings.proc_environ. rewrite Hf.
  rewrite proc_environ_loop_empty_name. reflexivity.
Qed.

(** X9: a schema identifier with at most one ":" is split as specified:
    the schema before the ":", the whole rest as the path, and no path
    without a ":". *)
Theorem schema_path_at_most_one_colon (ident : string) :
  (forall i, PyStr.index ":" ident = Some i ->
             PyStr.index ":" (PyStr.drop (i + 1) ident) = None) ->
  Gsettings.schema_path ident = Ok (spec_split_first ident).
Proof.
  intros Hone. rewrite schema_path_spec. unfold spec_split_first.
  destruct (PyStr.index ":" ident) as [i|]; [|reflexivity].
  rewrite (Hone i eq_refl). reflexivity.
Qed.


End MoreLauncher.

(** ** Further properties of the settings loop *)

Section MoreBatch.
Context `{GiRepository}.
Variable w : os_world.

Lemma get_value_none gs (t : triplet) (st : state) :
  current st t = None ->
  Gsettings.get_value gs (schema t) (key t) st = (Raise GError, st).
Proof.
  unfold current, Gsettings.get_value, bind, lift, read_store.
  rewrite schema_path_spec. cbn beta iota. intros Hc. rewrite Hc. reflexivity.
Qed.

Lemma current_target (st : state) (t : triplet) (old : variant) :
  current st t = Some old ->
  exists k, target t = Some k /\ dconf st !! k = Some old.
Proof.
  unfold current, target.
  destruct (Gsettings.schema_path (schema t)) as [sp|e]; [|discriminate].
  intros Hc. eexists. split; [reflexivity | exact Hc].
Qed.

(** One turn on a triplet the store already agrees with. *)
Lemma main_step_settled gs cm (t : triplet) (hc : bool) (st : state)
    (old : variant) :
  current st t = Some old ->
  py_eqb (unpack old) (value t) = true ->
  main_step gs cm t hc st = (Ok hc, st).
Proof.
  intros Hc He. unfold main_step. unfold bind at 1.
  rewrite (get_value_current gs t st old Hc), He. reflexivity.
Qed.

(** One turn in apply mode on a differing triplet that can be encoded. *)
Lemma main_step_apply gs (t : triplet) (hc : bool) (st : state)
    (old new : variant) (k : store_key) :
  current st t = Some old ->
  target t = Some k ->
  py_eqb (unpack old) (value t) = false ->
  Variant (get_type_string old) (value t) = Some new ->
  main_step gs false t hc st =
  (Ok true, applied_state st k new
              (applied_msg (schema t) (key t) (unpack old) (value t))).
Proof.
  intros Hc Hk He Hv. unfold main_step. unfold bind at 1.
  rewrite (get_value_current gs t st old Hc), He. cbn [negb]. rewrite Hv.
  unfold target in Hk. unfold Gsettings.set_value, bind, lift.
  destruct (Gsettings.schema_path (schema t)) as [sp|e]; [|discriminate].
  injection Hk as <-. reflexivity.
Qed.

(** What one turn can do to the state, whatever its outcome: nothing, one
    message, or one write under the triplet's key with one message. *)
Lemma main_step_effect gs cm (t : triplet) (hc : bool) (st : state) :
  let st1 := (main_step gs cm t hc st).2 in
  st1 = st \/
  (exists m, st1 = add_msgs st [m]) \/
  (exists k new m, target t = Some k /\ st1 = applied_state st k new m).
Proof.
  destruct (current st t) as [old|] eqn:Hc.
  - destruct (py_eqb (unpack old) (value t)) eqn:He.
    + left. rewrite (main_step_settled gs cm t hc st old Hc He). reflexivity.
    + destruct cm.
      * right; left. unfold main_step. unfold bind at 1.
        rewrite (get_value_current gs t st old Hc), He.
        eexists. reflexivity.
      * destruct (Variant (get_type_string old) (value t)) as [new|] eqn:Hv.
        -- destruct (current_target st t old Hc) as (k & Hk & _).
           right; right. exists k, new. eexists. split; [exact Hk|].
           rewrite (main_step_apply gs t hc st old new k Hc Hk He Hv).
           reflexivity.
        -- left. unfold main_step. unfold bind at 1.
           rewrite (get_value_current gs t st old Hc), He. cbn [negb].
           rewrite Hv. reflexivity.
  - left. unfold main_step. unfold bind at 1.
    rewrite (get_value_none gs t st Hc). reflexivity.
Qed.

Lemma main_loop_cons_state gs cm (t : triplet) (rest : list triplet)
    (hc : bool) (st : state) :
  (main_loop gs cm (t :: rest) hc st).2 = (main_step gs cm t hc st).2 \/
  exists hc1, (main_loop gs cm (t :: rest) hc st).2
              = (main_loop gs cm rest hc1 (main_step gs cm t hc st).2).2.
Proof.
  cbn [main_loop]. unfold bind.
  destruct (main_step gs cm t hc st) as [[hc1|e] st1]; [|left; reflexivity].
  right. exists hc1. reflexivity.
Qed.

(** X11: a run of the loop, in either mode and whatever its outcome,
    leaves alone every setting that no triplet of the list is about. *)
Theorem other_settings_are_untouched gs cm (settings : list triplet)
    (hc : bool) (st : state) (k : store_key) :
  forallb (fun t => negb (bool_decide (target t = Some k))) settings = true ->
  dconf (main_loop gs cm settings hc st).2 !! k = dconf st !! k.
Proof.
  revert hc st. induction settings as [|t rest IH]; intros hc st Hk;
    [reflexivity|].
  cbn [forallb] in Hk. apply andb_prop in Hk as [Ht Hrest].
  apply negb_true_iff, bool_decide_eq_false in Ht.
  assert (Hstep : dconf (main_step gs cm t hc st).2 !! k = dconf st !! k).
  { destruct (main_step_effect gs cm t hc st)
      as [-> | [[m ->] | (k' & new & m & Hk' & ->)]]; try reflexivity.
    cbn [applied_state dconf]. apply lookup_insert_ne. congruence. }
  destruct (main_loop_cons_state gs cm t rest hc st) as [-> | [hc1 ->]].
  - exact Hstep.
  - rewrite (IH hc1 _ Hrest). exact Hstep.
Qed.

(** X12: when the store already holds the desired value of every triplet,
    the loop does nothing at all, in either mode: no write, no message,
    the flag as it was. *)
Theorem settled_settings_change_nothing gs cm (settings : list triplet)
    (hc : bool) (st : state) :
  forallb (readable st) settings = true ->
  existsb (differs st) settings = false ->
  main_loop gs cm settings hc st = (Ok hc, st).
Proof.
  induction settings as [|t rest IH]; intros Hr Hd; [reflexivity|].
  cbn [forallb] in Hr. apply andb_prop in Hr as [Ht Hr].
  cbn [existsb] in Hd. apply orb_false_elim in Hd as [Hdt Hd].
  unfold readable in Ht. unfold differs in Hdt.
  destruct (current st t) as [old|] eqn:Hc; [|discriminate].
  apply negb_false_iff in Hdt.
  cbn [main_loop]. unfold bind.
  rewrite (main_step_settled gs cm t hc st old Hc Hdt). exact (IH Hr Hd).
Qed.

(** X13: idempotence.  Applying a differing triplet writes the re-encoded
    value under its key and records the transition; provided the encoded
    value unpacks to something equal to the desired value, applying (or
    checking) the same triplet again then changes nothing and reports no
    change. *)
Theorem applying_twice_changes_once gs (t : triplet) (hc : bool) (st : state)
    (old new : variant) (k : store_key) :
  current st t = Some old ->
  target t = Some k ->
  py_eqb (unpack old) (value t) = false ->
  Variant (get_type_string old) (value t) = Some new ->
  py_eqb (unpack new) (value t) = true ->
  let st1 := applied_state st k new
               (applied_msg (schema t) (key t) (unpack old) (value t)) in
  main_loop gs false [t] hc st = (Ok true, st1) /\
  forall cm, main_loop gs cm [t] false st1 = (Ok false, st1).
Proof.
  intros Hc Hk He Hv Hn st1. split.
  - cbn [main_loop]. unfold bind.
    rewrite (main_step_apply gs t hc st old new k Hc Hk He Hv). reflexivity.
  - intros cm.
    assert (Hc1 : current st1 t = Some new).
    { unfold current, target in *.
      destruct (Gsettings.schema_path (schema t)) as [sp|e]; [|discriminate].
      injection Hk as <-. unfold st1. cbn [applied_state dconf].
      apply lookup_insert_eq. }
    cbn [main_loop]. unfold bind.
    rewrite (main_step_settled gs cm t false st1 new Hc1 Hn). reflexivity.
Qed.


Lemma main_step_same_state gs cm (t : triplet) (hc hc1 : bool)
    (st st1 : state) :
  differs st t = false ->
  main_step gs cm t hc st = (Ok hc1, st1) ->
  st1 = st.
Proof.
  unfold differs. intros Hd Hs.
  destruct (current st t) as [old|] eqn:Hc.
  - apply negb_false_iff in Hd.
    rewrite (main_step_settled gs cm t hc st old Hc Hd) in Hs.
    injection Hs as _ <-. reflexivity.
  - unfold main_step in Hs. unfold bind at 1 in Hs.
    rewrite (get_value_none gs t st Hc) in Hs. discriminate.
Qed.

(** The flag of a run that ends well: set before, or some triplet differs
    from the store the run started with. *)
Lemma main_loop_flag gs cm (settings : list triplet) (hc c : bool)
    (st st' : state) :
  main_loop gs cm settings hc st = (Ok c, st') ->
  c = hc || existsb (differs st) settings.
Proof.
  revert hc st. induction settings as [|t rest IH]; intros hc st Hl.
  - cbn in Hl. injection Hl as <- _. rewrite orb_false_r. reflexivity.
  - pose proof Hl as Hall. cbn [main_loop] in Hl. unfold bind in Hl.
    destruct (main_step gs cm t hc st) as [[hc1|e] st1] eqn:Hs; [|discriminate].
    pose proof (main_step_changed gs cm t hc hc1 st st1 Hs) as Hh.
    cbn [existsb]. destruct (differs st t) eqn:Hd.
    + rewrite orb_true_r in Hh. subst hc1. rewrite orb_true_r.
      apply (main_loop_changed gs cm rest true c st1 st' Hl). left. reflexivity.
    + rewrite orb_false_r in Hh. subst hc1.
      rewrite (main_step_same_state gs cm t hc hc st st1 Hd Hs) in Hl.
      cbn [orb]. exact (IH hc st Hl).
Qed.

(** X15: check mode predicts apply mode.  The [changed] flag of an apply
    run that ends well is whether some triplet differs from the store the
    run started with, which is the flag a check run on the same store
    reports. *)
Theorem check_mode_predicts_apply_flag gs (settings : list triplet)
    (c : bool) (st st' : state) :
  main_loop gs false settings false st = (Ok c, st') ->
  c = existsb (differs st) settings /\
  forall c' st'',
    main_loop gs true settings false st = (Ok c', st'') -> c' = c.
Proof.
  intros Ha. pose proof (main_loop_flag gs false settings false c st st' Ha) as E.
  cbn [orb] in E. split; [exact E|].
  intros c' st'' Hc.
  pose proof (main_loop_flag gs true settings false c' st st'' Hc) as E'.
  cbn [orb] in E'. congruence.
Qed.

Lemma main_step_msgs gs cm (t : triplet) (hc hc1 : bool) (st st1 : state) :
  main_step gs cm t hc st = (Ok hc1, st1) ->
  (hc1 = hc /\ change_msgs st1 = change_msgs st) \/
  (hc1 = true /\ exists m, change_msgs st1 = change_msgs st ++ [m]).
Proof.
  intros Hs. destruct (differs st t) eqn:Hd.
  - right. pose proof (main_step_changed gs cm t hc hc1 st st1 Hs) as Hh.
    rewrite Hd, orb_true_r in Hh. split; [exact Hh|].
    unfold differs in Hd.
    destruct (current st t) as [old|] eqn:Hc; [|discriminate].
    apply negb_true_iff in Hd. unfold main_step in Hs. unfold bind at 1 in Hs.
    rewrite (get_value_current gs t st old Hc), Hd in Hs. cbn [negb] in Hs.
    destruct cm.
    + injection Hs as _ <-. eexists. reflexivity.
    + destruct (Variant (get_type_string old) (value t)) as [new|] eqn:Hv;
        [|discriminate].
      destruct (current_target st t old Hc) as (k & Hk & _).
      pose proof (main_step_apply gs t hc st old new k Hc Hk Hd Hv) as Ha.
      unfold main_step in Ha. unfold bind at 1 in Ha.
      rewrite (get_value_current gs t st old Hc), Hd in Ha. cbn [negb] in Ha.
      rewrite Hv in Ha. rewrite Ha in Hs. injection Hs as _ <-.
      eexists. reflexivity.
  - left. pose proof (main_step_changed gs cm t hc hc1 st st1 Hs) as Hh.
    rewrite Hd, orb_false_r in Hh. split; [exact Hh|].
    rewrite (main_step_same_state gs cm t hc hc1 st st1 Hd Hs). reflexivity.
Qed.

Lemma main_loop_msgs gs cm (settings : list triplet) (hc c : bool)
    (st st' : state) :
  main_loop gs cm settings hc st = (Ok c, st') ->
  exists ms, change_msgs st' = change_msgs st ++ ms /\
             (c = true <-> hc = true \/ ms <> []).
Proof.
  revert hc st. induction settings as [|t rest IH]; intros hc st Hl.
  - cbn in Hl. injection Hl as <- <-. exists []. rewrite app_nil_r.
    split; [reflexivity|]. split; [auto | intros [E|E]; [exact E | contradiction]].
  - cbn [main_loop] in Hl. unfold bind in Hl.
    destruct (main_step gs cm t hc st) as [[hc1|e] st1] eqn:Hs; [|discriminate].
    destruct (IH hc1 st1 Hl) as (ms & Hms & Hiff).
    destruct (main_step_msgs gs cm t hc hc1 st st1 Hs)
      as [[-> Hm] | [-> [m Hm]]].
    + exists ms. rewrite Hms, Hm. split; [reflexivity | exact Hiff].
    + exists (m :: ms). rewrite Hms, Hm, <- app_assoc. split; [reflexivity|].
      split; [intros _; right; discriminate |].
      intros _. apply Hiff. left. reflexivity.
Qed.

(** X16: in a process that starts with an empty message list, a report of
    [main] has [changed] set exactly when its list of messages is not
    empty. *)
Theorem changed_iff_some_message (cm : bool) (settings : list triplet)
    (st st' : state) (rc : Z) (changed : bool) (msgs : list string) :
  change_msgs st = [] ->
  main w cm settings st = (Ok (exit_json rc changed msgs), st') ->
  (changed = true <-> msgs <> []).
Proof.
  intros Hempty Hm.
  destruct (HAS_GIO w) eqn:Hg;
    [|unfold main in Hm; rewrite Hg in Hm; discriminate].
  destruct (Gsettings.__init__ w st) as [[gs|e] st0] eqn:Hi;
    [|unfold main in Hm; rewrite Hg in Hm; cbn [negb] in Hm;
      unfold bind at 1 in Hm; rewrite Hi in Hm; discriminate].
  rewrite (main_run w cm settings st st0 gs Hg Hi) in Hm.
  destruct (main_loop gs cm settings false st0) as [[hc|e] st1] eqn:Hl;
    [|discriminate].
  injection Hm as _ <- <- _.
  destruct (init_frame w st st0 gs Hi) as (_ & Hm0 & _).
  destruct (main_loop_msgs gs cm settings false hc st0 st1 Hl) as (ms & Hms & Hiff).
  rewrite Hms, Hm0, Hempty. cbn [app]. rewrite Hiff.
  split; [intros [E|E]; [discriminate | exact E] | auto].
Qed.

(** What a run of the loop adds to the trace, whatever its outcome, are
    writes to the store. *)
Lemma main_loop_trace gs cm (settings : list triplet) (hc : bool) (st : state) :
  exists writes,
    trace (main_loop gs cm settings hc st).2 = trace st ++ writes /\
    Forall is_write writes.
Proof.
  revert hc st. induction settings as [|t rest IH]; intros hc st.
  - exists []. cbn. rewrite app_nil_r. split; [reflexivity | constructor].
  - assert (Hstep : exists ws, trace (main_step gs cm t hc st).2 = trace st ++ ws
                               /\ Forall is_write ws).
    { destruct (main_step_effect gs cm t hc st)
        as [-> | [[m ->] | (k & new & m & _ & ->)]].
      - exists []. rewrite app_nil_r. split; [reflexivity | constructor].
      - exists []. cbn. rewrite app_nil_r. split; [reflexivity | constructor].
      - exists [EvSetValue k new]. split; [reflexivity|].
        constructor; [|constructor]. exists k, new. reflexivity. }
    destruct Hstep as (ws & Hws & Hfor).
    destruct (main_loop_cons_state gs cm t rest hc st) as [-> | [hc1 ->]].
    + exists ws. split; assumption.
    + destruct (IH hc1 (main_step gs cm t hc st).2) as (ws' & Hws' & Hfor').
      exists (ws ++ ws'). rewrite Hws', Hws, <- app_assoc.
      split; [reflexivity | apply Forall_app; split; assumption].
Qed.

Lemma spawn_branch_events gs (st st0 : state) :
  spawn_branch w st = (Ok gs, st0) ->
  exists address,
    trace st0 = trace st ++ [EvPopen "dbus-launch"; EvBusGet address].
Proof.
  unfold spawn_branch, bind, ret. intros Hsp.
  pose proof (new_session_trace w st) as Ht1.
  destruct (Gsettings.new_session w st) as [[launched|e] st1]; [|discriminate].
  pose proof (bus_get_trace w st1) as Ht2.
  destruct (Gsettings.bus_get w st1) as [[handle|e] st2]; [|discriminate].
  injection Hsp as _ <-. cbn [snd] in *.
  eexists. rewrite Ht2, Ht1, <- app_assoc. reflexivity.
Qed.

(** X17: a run of [main] on a reused session connects to the bus and
    writes settings, and that is all it does to the outside, whatever the
    list, the mode and the outcome: it starts no helper, it does not wait
    and it sends no signal. *)
Theorem reused_session_is_never_signalled gs (cm : bool)
    (settings : list triplet) (st st0 : state) :
  HAS_GIO w = true ->
  Gsettings.__init__ w st = (Ok gs, st0) ->
  Gsettings._cleanup gs = false ->
  exists address writes,
    new_events st (main w cm settings st).2 = EvBusGet address :: writes /\
    Forall is_write writes.
Proof.
  intros Hg Hi Hc.
  destruct (init_cases w st gs st0 Hi) as [Hsp | (p & a & Hre)].
  { rewrite (spawn_branch_cleanup w st gs st0 Hsp) in Hc. discriminate. }
  destruct (reuse_branch_inv w p a st gs st0 Hre) as [_ [address Hn]].
  destruct (init_frame w st st0 gs Hi) as (_ & _ & ievs & Ht0 & _).
  rewrite (new_events_app st st0 ievs Ht0) in Hn. subst ievs.
  destruct (main_loop_trace gs cm settings false st0) as (ws & Hws & Hfor).
  exists address, ws. split; [|exact Hfor].
  apply new_events_app. rewrite (main_run w cm settings st st0 gs Hg Hi).
  destruct (main_loop gs cm settings false st0) as [[hc|e] st1]; cbn [snd] in *.
  - rewrite del_run, Hc. cbn [snd]. rewrite Hws, Ht0, <- app_assoc. reflexivity.
  - rewrite Hws, Ht0, <- app_assoc. reflexivity.
Qed.

(** X18: a run of [main] that launched the daemon and whose loop ends
    well does, in this order: start the helper, connect to the bus, write
    settings, wait one second, send SIGTERM to the pid the instance
    holds. *)
Theorem ephemeral_run_ends_with_sigterm gs (cm : bool)
    (settings : list triplet) (st st0 st1 : state) (c : bool) (n : Z) :
  HAS_GIO w = true ->
  Gsettings.__init__ w st = (Ok gs, st0) ->
  Gsettings._cleanup gs = true ->
  Gsettings.int_of_pid (Gsettings.session_pid gs) = Ok n ->
  main_loop gs cm settings false st0 = (Ok c, st1) ->
  exists address writes,
    new_events st (main w cm settings st).2
      = EvPopen "dbus-launch" :: EvBusGet address :: writes
        ++ [EvSleep 1; EvKill n SIGTERM] /\
    Forall is_write writes.
Proof.
  intros Hg Hi Hc Hn Hl.
  destruct (init_cases w st gs st0 Hi) as [Hsp | (p & a & Hre)].
  2:{ destruct (reuse_branch_inv w p a st gs st0 Hre) as [Hf _].
      rewrite Hf in Hc. discriminate. }
  destruct (spawn_branch_events gs st st0 Hsp) as [address Ht0].
  destruct (main_loop_trace gs cm settings false st0) as (ws & Hws & Hfor).
  rewrite Hl in Hws. cbn [snd] in Hws.
  exists address, ws. split; [|exact Hfor].
  apply new_events_app. rewrite (main_run w cm settings st st0 gs Hg Hi), Hl.
  cbn [snd]. rewrite del_run, Hc, Hn. cbn [snd add_events trace].
  rewrite Hws, Ht0, <- !app_assoc. reflexivity.
Qed.

End MoreBatch.

(** ** The further theorems at work on the sample worlds *)

(** The caller's session is found and its address installed. *)
Lemma reuse_installs_address_witness :
  (Gsettings.__init__ (Sample.desktop (Some Sample.good_env)) Sample.st0).1
  = Ok Sample.reused_gs.
Proof.
  rewrite (reuse_installs_address (Sample.desktop (Some Sample.good_env))
             Sample.st0 "janedoe" "812" "unix:path=/run/user/1000/bus"
             eq_refl ltac:(vm_compute; reflexivity)
             ltac:(vm_compute; reflexivity) ltac:(vm_compute; reflexivity)
             eq_refl).
  reflexivity.
Defined.

(** The selected session is the guest's: the caller's readable block is
    of no use. *)
Lemma foreign_session_environment_is_not_read_witness :
  Gsettings.__init__ (with_environ Sample.two_sessions (fun _ => None)) Sample.st0
  = Gsettings.__init__ Sample.two_sessions Sample.st0.
Proof.
  refine (proj1 (foreign_session_environment_is_not_read Sample.two_sessions
                   Sample.st0 "janedoe" (fun _ => None) eq_refl _)).
  right. exists "2040"%string, (Some "guest"%string).
  split; [vm_compute; reflexivity|].
  split; [vm_compute; reflexivity | discriminate].
Defined.

(** The session manager runs under a uid without a passwd entry. *)
Lemma owner_lookup_failure_is_raised_witness :
  Gsettings.__init__ Sample.orphan_session Sample.st0 = (Raise KeyError, Sample.st0).
Proof.
  apply (owner_lookup_failure_is_raised Sample.orphan_session Sample.st0
           "janedoe" "812" KeyError);
    vm_compute; reflexivity.
Defined.

(** The remark of the helper stops the launch; the address is installed. *)
Lemma launcher_stops_at_line_without_equals_witness :
  (Gsettings.new_session Sample.chatty_helper Sample.st0).1 = Raise ValueError /\
  os_environ (Gsettings.new_session Sample.chatty_helper Sample.st0).2 !! ENV_DBUS
  = Some ("unix:path=/tmp/bus" +:+ LF).
Proof.
  destruct (launcher_stops_at_line_without_equals Sample.chatty_helper Sample.st0
              _ ["DBUS_SESSION_BUS_ADDRESS=unix:path=/tmp/bus" +:+ LF]
              ["DBUS_SESSION_BUS_PID=4321" +:+ LF]
              ("dbus-launch: no display" +:+ LF)
              eq_refl ltac:(vm_compute; reflexivity)
              ltac:(vm_compute; reflexivity) ltac:(vm_compute; reflexivity))
    as (st1 & H1 & H2).
  rewrite H2. split; [reflexivity|]. cbn [snd].
  apply (f_equal snd) in H1. cbn [snd] in H1. rewrite <- H1.
  vm_compute. reflexivity.
Defined.

(** The helper prints no pid; the pid of the surrounding session is
    returned. *)
Lemma launcher_returns_inherited_pid_witness :
  (Gsettings.new_session Sample.silent_helper Sample.st_inside_session).1
  = Ok "999"%string.
Proof.
  rewrite (launcher_returns_inherited_pid Sample.silent_helper
             Sample.st_inside_session _ "999" eq_refl
             ltac:(vm_compute; reflexivity) ltac:(vm_compute; reflexivity)
             ltac:(vm_compute; reflexivity)).
  reflexivity.
Defined.

(** An ordinary block: the address is found. *)
Lemma proc_environ_agrees_with_spec_witness :
  Gsettings.proc_environ (Sample.desktop (Some Sample.good_env)) "812" ENV_DBUS
  = Ok (Some "unix:path=/run/user/1000/bus"%string).
Proof.
  rewrite (proc_environ_agrees_with_spec (Sample.desktop (Some Sample.good_env))
             "812" Sample.good_env ENV_DBUS eq_refl
             ltac:(vm_compute; reflexivity)
             ltac:(unfold ENV_DBUS; discriminate)
             ltac:(vm_compute; reflexivity)).
  vm_compute. reflexivity.
Defined.

(** An entry that starts with "=": still nothing for the empty name. *)
Lemma proc_environ_empty_name_witness :
  Gsettings.proc_environ (Sample.desktop (Some "=x"%string)) "812" "" = Ok None.
Proof.
  apply (proc_environ_empty_name (Sample.desktop (Some "=x"%string)) "812" "=x").
  reflexivity.
Defined.

(** One ":" in the identifier. *)
Lemma schema_path_at_most_one_colon_witness :
  Gsettings.schema_path "org.gnome.desktop.app-folders.folder:/org/gnome/desktop/app-folders/folders/Utilities/"
  = Ok ("org.gnome.desktop.app-folders.folder"%string,
        Some "/org/gnome/desktop/app-folders/folders/Utilities/"%string).
Proof.
  rewrite schema_path_at_most_one_colon.
  - vm_compute. reflexivity.
  - intros i Hi. vm_compute in Hi. injection Hi as <-. vm_compute. reflexivity.
Defined.

(** Applying [lock_on] leaves the idle delay as it is. *)
Lemma other_settings_are_untouched_witness :
  dconf (main_loop Sample.ephemeral_gs false [Sample.lock_on] false Sample.st0).2
    !! ("org.gnome.desktop.session"%string, None, "idle-delay"%string)
  = dconf Sample.st0
    !! ("org.gnome.desktop.session"%string, None, "idle-delay"%string).
Proof.
  apply (other_settings_are_untouched Sample.ephemeral_gs false [Sample.lock_on]
           false Sample.st0).
  vm_compute. reflexivity.
Defined.

(** The store already has the lock switched off. *)
Lemma settled_settings_change_nothing_witness :
  main_loop Sample.ephemeral_gs false [Sample.lock_off] false Sample.st0
  = (Ok false, Sample.st0).
Proof.
  apply (settled_settings_change_nothing Sample.ephemeral_gs false
           [Sample.lock_off] false Sample.st0);
    vm_compute; reflexivity.
Defined.

(** Switching the lock on, twice. *)
Lemma applying_twice_changes_once_witness :
  (main_loop Sample.ephemeral_gs false [Sample.lock_on] false Sample.st0).1
    = Ok true /\
  (main_loop Sample.ephemeral_gs false [Sample.lock_on] false
     (main_loop Sample.ephemeral_gs false [Sample.lock_on] false Sample.st0).2).1
    = Ok false.
Proof.
  pose proof (applying_twice_changes_once Sample.ephemeral_gs Sample.lock_on
                false Sample.st0 ("b"%string, Sample.VBool false)
                ("b"%string, Sample.VBool true)
                ("org.gnome.desktop.screensaver"%string, None,
                 "lock-enabled"%string)
                ltac:(vm_compute; reflexivity) ltac:(vm_compute; reflexivity)
                ltac:(vm_compute; reflexivity) ltac:(vm_compute; reflexivity)
                ltac:(vm_compute; reflexivity)) as Hx.
  cbv zeta in Hx. destruct Hx as [H1 H2].
  rewrite H1. cbn [fst snd]. rewrite (H2 false). split; reflexivity.
Defined.


(** Two differing triplets, applied: the flag is the one check mode gives. *)
Lemma check_mode_predicts_apply_flag_witness :
  true = existsb (differs Sample.st0) [Sample.lock_on; Sample.idle_600].
Proof.
  refine (proj1 (check_mode_predicts_apply_flag Sample.ephemeral_gs
                   [Sample.lock_on; Sample.idle_600] true Sample.st0
                   (main_loop Sample.ephemeral_gs false
                      [Sample.lock_on; Sample.idle_600] false Sample.st0).2 _)).
  apply pair_eta. vm_compute. reflexivity.
Defined.

(** A check run with one differing triplet: one message, flag set. *)
Lemma changed_iff_some_message_witness :
  true = true <->
  ["org.gnome.desktop.screensaver/lock-enabled -> current: False ; proposed new: True"%string]
  <> [].
Proof.
  refine (changed_iff_some_message Sample.bare true [Sample.lock_on] Sample.st0
            (main Sample.bare true [Sample.lock_on] Sample.st0).2 0 true _
            eq_refl _).
  apply pair_eta. vm_compute. reflexivity.
Defined.

(** A run on the caller's own session. *)
Lemma reused_session_is_never_signalled_witness :
  exists address writes,
    new_events Sample.st0
      (main (Sample.desktop (Some Sample.good_env)) false [Sample.lock_on]
            Sample.st0).2
    = EvBusGet address :: writes /\
    Forall is_write writes.
Proof.
  apply (reused_session_is_never_signalled
           (Sample.desktop (Some Sample.good_env)) Sample.reused_gs false
           [Sample.lock_on] Sample.st0
           (Gsettings.__init__ (Sample.desktop (Some Sample.good_env))
              Sample.st0).2 eq_refl).
  - apply pair_eta. vm_compute. reflexivity.
  - reflexivity.
Defined.

(** A run that had to launch its own daemon. *)
Lemma ephemeral_run_ends_with_sigterm_witness :
  exists address writes,
    new_events Sample.st0 (main Sample.bare false [Sample.lock_on] Sample.st0).2
    = EvPopen "dbus-launch" :: EvBusGet address :: writes
      ++ [EvSleep 1; EvKill 4321 SIGTERM] /\
    Forall is_write writes.
Proof.
  apply (ephemeral_run_ends_with_sigterm Sample.bare Sample.ephemeral_gs false
           [Sample.lock_on] Sample.st0
           (Gsettings.__init__ Sample.bare Sample.st0).2
           (main_loop Sample.ephemeral_gs false [Sample.lock_on] false
              (Gsettings.__init__ Sample.bare Sample.st0).2).2
           true 4321 eq_refl).
  - apply pair_eta. vm_compute. reflexivity.
  - reflexivity.
  - vm_compute. reflexivity.
  - apply pair_eta. vm_compute. reflexivity.
Defined.

(** ** Properties of the readers of the status record *)

Section StatusRecord.
Variable w : os_world.

Lemma find_skip {A : Type} (f : A -> bool) (pre post : list A) (x : A) :
  forallb (fun y => negb (f y)) pre = true ->
  f x = true ->
  List.find f (pre ++ x :: post) = Some x.
Proof.
  intros Hpre Hx. induction pre as [|y pre IH]; cbn [app List.find].
  - rewrite Hx. reflexivity.
  - cbn [forallb] in Hpre. apply andb_prop in Hpre as [Hy Hpre].
    apply negb_true_iff in Hy. rewrite Hy. exact (IH Hpre).
Qed.

Lemma index_append_none (c : ascii) (a b : string) :
  PyStr.index c a = None -> PyStr.index c b = None ->
  PyStr.index c (a +:+ b) = None.
Proof.
  intros Ha Hb. induction a as [|x a IH]; [exact Hb|].
  rewrite append_cons. cbn [PyStr.index] in *.
  destruct (Ascii.eqb x c); [discriminate|].
  destruct (PyStr.index c a); [discriminate|].
  rewrite IH by reflexivity. reflexivity.
Qed.

Lemma rev_app_append (s t acc : string) :
  String.rev_app (s +:+ t) acc = String.rev_app t (String.rev_app s acc).
Proof.
  revert acc. induction s as [|a s IH]; intros acc; [reflexivity|].
  rewrite append_cons. cbn [String.rev_app]. apply IH.
Qed.

Lemma rev_rev (s : string) : String.rev (String.rev s) = s.
Proof.
  unfold String.rev. rewrite rev_app_rev_app. cbn [String.rev_app].
  apply append_nil_r.
Qed.

(** Stripping a name that has no whitespace at either end, set between a
    tab and a newline, gives the name. *)
Lemma strip_field (name : string) :
  name <> EmptyString ->
  PyStr.lstrip name = name ->
  PyStr.lstrip (String.rev name) = String.rev name ->
  PyStr.strip (TAB +:+ name +:+ LF) = name.
Proof.
  intros Hne Hl Hr. unfold PyStr.strip, TAB, LF.
  rewrite append_cons, append_nil. cbn [PyStr.lstrip Ascii.is_space].
  assert (E : PyStr.lstrip (name +:+ String PyStr.LF "")
              = name +:+ String PyStr.LF "").
  { destruct name as [|a name]; [contradiction|].
    rewrite append_cons. cbn [PyStr.lstrip] in *.
    destruct (Ascii.is_space a) eqn:Ea; [|reflexivity].
    exfalso. clear - Hl.
    assert (Hlen : forall s,
               (String.length (PyStr.lstrip s) <= String.length s)%nat).
    { induction s as [|b s IHs]; cbn [PyStr.lstrip String.length]; [lia|].
      destruct (Ascii.is_space b); cbn [String.length]; lia. }
    specialize (Hlen name). rewrite Hl in Hlen. cbn [String.length] in Hlen. lia. }
  rewrite E. unfold String.rev at 2. rewrite rev_app_append.
  cbn [String.rev_app]. fold (String.rev name).
  cbn [PyStr.lstrip PyStr.LF Ascii.is_space]. rewrite Hr. apply rev_rev.
Qed.

(** X19: for a status record whose first line with "Name" in it is the
    kernel's "Name:<tab>name<newline>", with a name that holds no ":" and
    has no whitespace at either end, [proc_name] returns the name. *)
Theorem proc_name_reads_name_line (pid text name : string)
    (pre post : list string) :
  proc_status w pid = Some text ->
  PyStr.readlines text = pre ++ ("Name:" +:+ TAB +:+ name +:+ LF) :: post ->
  forallb (fun l => negb (PyStr.contains "Name" l)) pre = true ->
  name <> EmptyString ->
  PyStr.index ":" name = None ->
  PyStr.lstrip name = name ->
  PyStr.lstrip (String.rev name) = String.rev name ->
  Gsettings.proc_name w pid = Some name.
Proof.
  intros Hs Hlines Hpre Hne Hcolon Hl Hr.
  unfold Gsettings.proc_name. rewrite Hs, Hlines.
  assert (Hc : PyStr.contains "Name" ("Name:" +:+ TAB +:+ name +:+ LF) = true).
  { rewrite !append_cons, append_nil. reflexivity. }
  rewrite (find_skip _ pre post _ Hpre Hc).
  rewrite split_index.
  assert (Hi : PyStr.index ":" ("Name:" +:+ TAB +:+ name +:+ LF) = Some 4%nat).
  { rewrite !append_cons, append_nil. reflexivity. }
  rewrite Hi. cbn [lookup list_lookup].
  assert (Hd : PyStr.drop (4 + 1) ("Name:" +:+ TAB +:+ name +:+ LF)
               = TAB +:+ name +:+ LF).
  { rewrite !append_cons, append_nil. reflexivity. }
  rewrite Hd, split_index.
  assert (Hn : PyStr.index ":" (TAB +:+ name +:+ LF) = None).
  { apply index_append_none; [reflexivity|].
    apply index_append_none; [exact Hcolon | reflexivity]. }
  rewrite Hn. cbn [lookup list_lookup fmap option_fmap option_map]. f_equal.
  apply strip_field; assumption.
Qed.

Lemma words_go_run (s c rest : string) (sp : ascii) :
  no_space s = true ->
  Ascii.is_space sp = true ->
  String.words_go (Some c) (s +:+ String sp rest)
  = String.rev (String.rev_app s c) :: String.words_go None rest.
Proof.
  intros Hs Hsp. revert c. induction s as [|a s IH]; intros c.
  - rewrite append_nil. cbn [String.words_go]. rewrite Hsp. reflexivity.
  - cbn [no_space] in Hs. apply andb_prop in Hs as [Ha Hs].
    apply negb_true_iff in Ha.
    rewrite append_cons. cbn [String.words_go]. rewrite Ha.
    cbn [from_option]. rewrite (IH Hs). reflexivity.
Qed.

Lemma words_go_first (s rest : string) (sp : ascii) :
  s <> EmptyString ->
  no_space s = true ->
  Ascii.is_space sp = true ->
  String.words_go None (s +:+ String sp rest)
  = s :: String.words_go None rest.
Proof.
  intros Hne Hs Hsp. destruct s as [|a s]; [contradiction|].
  cbn [no_space] in Hs. apply andb_prop in Hs as [Ha Hs].
  apply negb_true_iff in Ha.
  rewrite append_cons. cbn [String.words_go]. rewrite Ha. cbn [from_option].
  rewrite (words_go_run s _ rest sp Hs Hsp). f_equal.
  unfold String.rev. rewrite rev_app_rev_app. cbn [String.rev_app].
  rewrite append_nil_r. reflexivity.
Qed.

(** X20: for a status record whose first line starting with "Uid:" is the
    kernel's "Uid:<tab>real<tab>...", [proc_owner] looks up the REAL uid
    (the first number of the line) in the user database: the name when
    the uid is known, [KeyError] when it is not. *)
Theorem proc_owner_reads_real_uid (pid text ruid rest : string)
    (pre post : list string) (uid : Z) :
  proc_status w pid = Some text ->
  PyStr.readlines text
    = pre ++ ("Uid:" +:+ TAB +:+ ruid +:+ TAB +:+ rest) :: post ->
  forallb (fun l => negb (PyStr.startswith l "Uid:")) pre = true ->
  ruid <> EmptyString ->
  no_space ruid = true ->
  PyStr.int ruid = Some uid ->
  Gsettings.proc_owner w pid =
  match getpwuid w uid with
  | Some name => Ok (Some name)
  | None => Raise KeyError
  end.
Proof.
  intros Hs Hlines Hpre Hne Hns Hint.
  unfold Gsettings.proc_owner. rewrite Hs, Hlines.
  assert (Hp : PyStr.startswith ("Uid:" +:+ TAB +:+ ruid +:+ TAB +:+ rest) "Uid:"
               = true) by apply prefix_append.
  rewrite (find_skip (fun ln => PyStr.startswith ln "Uid:") pre post _ Hpre Hp).
  assert (Hw : PyStr.split_ws ("Uid:" +:+ TAB +:+ ruid +:+ TAB +:+ rest) !! UID
               = Some ruid).
  { unfold PyStr.split_ws, String.words, TAB.
    change ("Uid:" +:+ String "009" "" +:+ ruid +:+ String "009" "" +:+ rest)
      with ("Uid:" +:+ String "009" (ruid +:+ String "009" rest)).
    rewrite (words_go_first "Uid:" _ "009"%char);
      [|discriminate | reflexivity | reflexivity].
    rewrite (words_go_first ruid rest "009"%char Hne Hns eq_refl).
    reflexivity. }
  rewrite Hw, Hint. reflexivity.
Qed.

End StatusRecord.

Section MoreLauncherPid.
Context `{GiRepository}.
Variable w : os_world.

(** Taking the newlines out of a text that has one, at its end. *)
Lemma replace_trailing_newline (d : string) :
  PyStr.index PyStr.LF d = None ->
  PyStr.replace LF "" (d +:+ LF) = d.
Proof.
  unfold PyStr.replace, LF. intros Hd. induction d as [|a d IH].
  - reflexivity.
  - rewrite append_cons. cbn [PyStr.index] in Hd.
    destruct (Ascii.eqb a PyStr.LF) eqn:Ea; [discriminate|].
    destruct (PyStr.index PyStr.LF d) eqn:Ed; [discriminate|].
    cbn [PyStr.replace_go String.prefix].
    destruct (ascii_dec PyStr.LF a) as [E|_].
    + subst a. rewrite Ascii.eqb_refl in Ea. discriminate.
    + rewrite IH by reflexivity. reflexivity.
Qed.

(** X21: the helper prints "DBUS_SESSION_BUS_PID=d" on a line of its own,
    the last one for that variable, and its other lines hold an "=":
    [new_session] returns [d], without the newline of the line. *)
Theorem launcher_returns_printed_pid (st : state) (out d : string)
    (pre post : list string) :
  dbus_launch w = Some out ->
  PyStr.readlines out = pre ++ ("DBUS_SESSION_BUS_PID" +:+ "=" +:+ d +:+ LF) :: post ->
  forallb has_equals (pre ++ post) = true ->
  forallb (fun l => negb (PyStr.startswith l ("DBUS_SESSION_BUS_PID" +:+ "=")))
          post = true ->
  PyStr.index PyStr.LF d = None ->
  (Gsettings.new_session w st).1 = Ok d.
Proof.
  intros Hout Hlines Heq Hpost Hd.
  rewrite forallb_app in Heq. apply andb_prop in Heq as [Hpre Hpost_eq].
  set (st0 := add_events st [EvPopen "dbus-launch"]).
  destruct (new_session_loop_ok pre st0 Hpre) as [sta Ha].
  pose proof (new_session_loop_line "DBUS_SESSION_BUS_PID" (d +:+ LF) sta eq_refl)
    as Hb.
  match type of Hb with _ = (_, ?s) => set (stb := s) in Hb end.
  destruct (new_session_loop_ok post stb Hpost_eq) as [stc Hc].
  pose proof (new_session_loop_other "DBUS_SESSION_BUS_PID" post stb Hpost) as Ho.
  rewrite Hc in Ho. cbn [snd] in Ho.
  unfold Gsettings.new_session. rewrite Hout. unfold bind at 1.
  rewrite emit_run. fold st0. unfold bind at 1.
  rewrite Hlines, new_session_loop_app, Ha.
  change (?x :: post) with ([x] ++ post).
  rewrite new_session_loop_app, Hb, Hc.
  unfold bind, getenv, ret. rewrite Ho. unfold stb. cbn [os_environ].
  rewrite lookup_insert_eq. cbn [fst]. f_equal.
  apply replace_trailing_newline. exact Hd.
Qed.

End MoreLauncherPid.

(** The sample helper prints pid 4321. *)
Lemma launcher_returns_printed_pid_witness :
  (Gsettings.new_session Sample.bare Sample.st0).1 = Ok "4321"%string.
Proof.
  apply (launcher_returns_printed_pid Sample.bare Sample.st0 Sample.launch_output
           "4321" ["DBUS_SESSION_BUS_ADDRESS=" +:+ Sample.launched_address +:+ LF]
           []);
    vm_compute; reflexivity.
Defined.

(** The status record of the session manager in [desktop]. *)
Lemma proc_name_reads_name_line_witness :
  Gsettings.proc_name (Sample.desktop None) "812" = Some "gnome-session"%string.
Proof.
  apply (proc_name_reads_name_line (Sample.desktop None) "812"
           (Sample.status_text "gnome-session" "1000") "gnome-session" []
           (List.tl (PyStr.readlines (Sample.status_text "gnome-session" "1000"))));
    try (vm_compute; reflexivity).
  discriminate.
Defined.

(** The owner of that session manager. *)
Lemma proc_owner_reads_real_uid_witness :
  Gsettings.proc_owner (Sample.desktop None) "812" = Ok (Some "janedoe"%string).
Proof.
  rewrite (proc_owner_reads_real_uid (Sample.desktop None) "812"
             (Sample.status_text "gnome-session" "1000") "1000"
             ("1000" +:+ TAB +:+ "1000" +:+ TAB +:+ "1000" +:+ LF)
             (List.firstn 2
                (PyStr.readlines (Sample.status_text "gnome-session" "1000")))
             [] 1000 eq_refl ltac:(vm_compute; reflexivity)
             ltac:(vm_compute; reflexivity) ltac:(discriminate)
             ltac:(vm_compute; reflexivity) ltac:(vm_compute; reflexivity)).
  reflexivity.
Defined.
